(** * servertime: the time-reporting HTTP endpoint of main.go

    The program is thirty lines of Go: [currentTime] formats the clock
    reading with the layout [time.RFC822Z], [handler] wraps it in a
    [ServiceResult], serialises the record with [json.Marshal] and writes
    it to the [http.ResponseWriter]; [main] binds the handler to "/" and
    listens on a fixed port.

    Everything the handler does goes through Go's standard library, so
    the development has two layers: the packages [time], [json] and
    [http] below embed the library routines the program calls (each one
    following the library's own code, restricted to what the program
    reaches), and the section after them embeds main.go line by line.
    The test of main_test.go and the first version of the program
    (src/unnamed/part_000), with the library routines that only it
    reaches, come after main.go. *)

From stdpp Require Import base numbers strings gmap.
From Stdlib Require Import ZArith Lia Ascii String List.
Import ListNotations.

Open Scope Z_scope.

(* stdpp blocks [simpl] on string concatenation; the proofs below compute
   with it. *)
#[global] Arguments String.append !_ _ : simpl nomatch.

(** Go strings are byte sequences; [string] over [ascii] is the same. *)
Definition byteZ (c : ascii) : Z := Z.of_nat (nat_of_ascii c).
Definition zbyte (n : Z) : ascii := ascii_of_nat (Z.to_nat n).

(** Functions that return [(T, error)] in Go. *)
Inductive result (E A : Type) : Type :=
| Ok (a : A)
| Err (e : E).
Arguments Ok {E A} a.
Arguments Err {E A} e.

(** ** Package time *)
Module time.

(** A [Time] is an instant and a location.  [unixSec] is [t.unixSec()],
    [nsec] the nanoseconds within that second, and [offset] the number of
    seconds east of UTC that [t.loc.lookup(t.unixSec())] returns. *)
Record Time := mkTime { unixSec : Z; nsec : Z; offset : Z }.

Definition secondsPerMinute : Z := 60.
Definition secondsPerHour : Z := 60 * secondsPerMinute.
Definition secondsPerDay : Z := 24 * secondsPerHour.
Definition daysPer400Years : Z := 365 * 400 + 97.
Definition daysPer100Years : Z := 365 * 100 + 24.
Definition daysPer4Years : Z := 365 * 4 + 1.

Definition absoluteZeroYear : Z := -292277022399.
Definition internalYear : Z := 1.
(** [(absoluteZeroYear - internalYear) * 365.2425 * secondsPerDay] *)
Definition absoluteToInternal : Z :=
  (absoluteZeroYear - internalYear) * daysPer400Years / 400 * secondsPerDay.
Definition internalToAbsolute : Z := - absoluteToInternal.
Definition unixToInternal : Z :=
  (1969 * 365 + 1969 / 4 - 1969 / 100 + 1969 / 400) * secondsPerDay.
Definition internalToUnix : Z := - unixToInternal.

(** Conversions to Go's 64-bit integers: the value modulo [2^64], read
    unsigned or signed. *)
Definition uint64 (x : Z) : Z := x mod 18446744073709551616.
Definition int64 (x : Z) : Z :=
  (x + 9223372036854775808) mod 18446744073709551616 - 9223372036854775808.

(** [t.abs()]: seconds since the absolute zero year, in the zone of [t],
    as a [uint64]. *)
Definition abs (t : Time) : Z :=
  uint64 (unixSec t + offset t + (unixToInternal + internalToAbsolute)).

Definition isLeap (year : Z) : bool :=
  (Z.rem year 4 =? 0) && (negb (Z.rem year 100 =? 0) || (Z.rem year 400 =? 0)).

Definition daysBefore : list Z :=
  [0; 31; 31 + 28; 31 + 28 + 31; 31 + 28 + 31 + 30; 31 + 28 + 31 + 30 + 31;
   31 + 28 + 31 + 30 + 31 + 30; 31 + 28 + 31 + 30 + 31 + 30 + 31;
   31 + 28 + 31 + 30 + 31 + 30 + 31 + 31;
   31 + 28 + 31 + 30 + 31 + 30 + 31 + 31 + 30;
   31 + 28 + 31 + 30 + 31 + 30 + 31 + 31 + 30 + 31;
   31 + 28 + 31 + 30 + 31 + 30 + 31 + 31 + 30 + 31 + 30;
   31 + 28 + 31 + 30 + 31 + 30 + 31 + 31 + 30 + 31 + 30 + 31].

Definition daysBeforeAt (i : Z) : Z := nth (Z.to_nat i) daysBefore 0.

(** [absDate(abs, true)]: year, month (January = 1), day of the month and
    day of the year (from 0) of an absolute time. *)
Definition absDate (abs : Z) : Z * Z * Z * Z :=
  let d := abs / secondsPerDay in
  (* 400-year cycles *)
  let n := d / daysPer400Years in
  let y := 400 * n in
  let d := d - daysPer400Years * n in
  (* 100-year cycles; the last one is a day longer *)
  let n := d / daysPer100Years in
  let n := n - Z.shiftr n 2 in
  let y := y + 100 * n in
  let d := d - daysPer100Years * n in
  (* 4-year cycles *)
  let n := d / daysPer4Years in
  let y := y + 4 * n in
  let d := d - daysPer4Years * n in
  (* years of a 4-year cycle; the last one is a day longer *)
  let n := d / 365 in
  let n := n - Z.shiftr n 2 in
  let y := y + n in
  let d := d - 365 * n in
  let year := y + absoluteZeroYear in
  let yday := d in
  let day := yday in
  if isLeap year && (day =? 31 + 29 - 1) then (year, 2, 29, yday)
  else
    let day := if isLeap year && (31 + 29 - 1 <? day) then day - 1 else day in
    (* estimate the month as if every month had 31 days *)
    let month := day / 31 in
    let end_ := daysBeforeAt (month + 1) in
    let '(month, begin) :=
      if end_ <=? day then (month + 1, end_) else (month, daysBeforeAt month) in
    (year, month + 1, day - begin + 1, yday).

(** [absClock(abs)]: hour, minute and second of the day. *)
Definition absClock (abs : Z) : Z * Z * Z :=
  let sec := abs mod secondsPerDay in
  let hour := sec / secondsPerHour in
  let sec := sec - hour * secondsPerHour in
  let min := sec / secondsPerMinute in
  let sec := sec - min * secondsPerMinute in
  (hour, min, sec).

Definition longMonthNames : list string :=
  ["January"; "February"; "March"; "April"; "May"; "June"; "July";
   "August"; "September"; "October"; "November"; "December"].

Definition shortMonthNames : list string :=
  ["Jan"; "Feb"; "Mar"; "Apr"; "May"; "Jun"; "Jul"; "Aug"; "Sep"; "Oct";
   "Nov"; "Dec"].

Definition digit (d : Z) : ascii := zbyte (48 + d).

(** The decimal digits of [u >= 0], most significant first. *)
Fixpoint utoa (fuel : nat) (u : Z) (acc : string) : string :=
  match fuel with
  | O => acc
  | S fuel' =>
      let acc' := String (digit (u mod 10)) acc in
      if u / 10 =? 0 then acc' else utoa fuel' (u / 10) acc'
  end.

Definition itoa (u : Z) : string := utoa (S (Z.to_nat (Z.log2 u))) u "".

Fixpoint zeros (n : nat) : string :=
  match n with O => "" | S n' => String "0" (zeros n') end.

(** [Month.String()] *)
Definition Month_String (m : Z) : string :=
  if (1 <=? m) && (m <=? 12) then nth (Z.to_nat (m - 1)) longMonthNames ""
  else "%!Month(" +:+ itoa (uint64 m) +:+ ")".

(** [appendInt(b, x, width)]: [x] in decimal, zero-padded to [width]
    digits, after a minus sign when negative. *)
Definition appendInt (x : Z) (width : nat) : string :=
  let u := Z.abs x in
  let ds := itoa u in
  (if x <? 0 then "-" else "") +:+ zeros (width - String.length ds) +:+ ds.

(** The pieces [nextStdChunk] cuts a layout into: literal text (its
    [prefix]) and the [std] codes.  Only the codes of [RFC822Z] occur. *)
Inductive chunk :=
| Lit (prefix : string)
| stdZeroDay      (* 02 *)
| stdMonth        (* Jan *)
| stdYear         (* 06 *)
| stdHour         (* 15 *)
| stdZeroMinute   (* 04 *)
| stdNumTZ.       (* -0700 *)

(** [RFC822Z = "02 Jan 06 15:04 -0700"] *)
Definition RFC822Z : list chunk :=
  [stdZeroDay; Lit " "; stdMonth; Lit " "; stdYear; Lit " ";
   stdHour; Lit ":"; stdZeroMinute; Lit " "; stdNumTZ].

(** One iteration of the loop of [Time.AppendFormat]. *)
Definition appendChunk (t : Time) (c : chunk) : string :=
  let '(year, month, day, _) := absDate (abs t) in
  let '(hour, min, _) := absClock (abs t) in
  match c with
  | Lit prefix => prefix
  | stdYear =>
      let y := if year <? 0 then - year else year in
      appendInt (Z.rem y 100) 2
  | stdMonth => substring 0 3 (Month_String month)
  | stdZeroDay => appendInt day 2
  | stdHour => appendInt hour 2
  | stdZeroMinute => appendInt min 2
  | stdNumTZ =>
      let zone := Z.quot (offset t) 60 in
      let sign := if zone <? 0 then "-" else "+" in
      let zone := if zone <? 0 then - zone else zone in
      sign +:+ appendInt (Z.quot zone 60) 2 +:+ appendInt (Z.rem zone 60) 2
  end.

(** The system clock as the program sees it: the reading that each call
    of [time.Now()] returns, and how many calls were made.  A reading
    carries the offset of the local zone at that instant. *)
Record Clock := mkClock { reading : nat -> Time; calls : nat }.

(** [time.Now()] *)
Definition Now (c : Clock) : Time * Clock :=
  (reading c (calls c), mkClock (reading c) (S (calls c))).

(** [t.Format(layout)] *)
Definition Format (t : Time) (layout : list chunk) : string :=
  fold_left (fun b c => b +:+ appendChunk t c) layout "".

(** *** Parsing

    [Parse(layout, value)] walks the layout the way [AppendFormat] does
    and reads each piece off the front of [value]. *)

(** What a [*ParseError] reports: a malformed element, a value out of
    range, text left over after the layout, or a day the month lacks. *)
Inductive ParseError :=
| errBad
| errRange (what : string)
| errExtraText (text : string)
| errDayOutOfRange.

Definition isDigitByte (c : ascii) : bool :=
  (byteZ "0" <=? byteZ c) && (byteZ c <=? byteZ "9").

(** [isDigit(s, i)] for [i = 0] and [i = 1] *)
Definition isDigit0 (s : string) : bool :=
  match s with String c _ => isDigitByte c | _ => false end.
Definition isDigit1 (s : string) : bool :=
  match s with String _ (String c _) => isDigitByte c | _ => false end.

(** [getnum(s, fixed)]: one or two leading digits ([fixed] demands two). *)
Definition getnum (s : string) (fixed : bool) : result ParseError (Z * string) :=
  if negb (isDigit0 s) then Err errBad
  else if negb (isDigit1 s) then
    if fixed then Err errBad
    else match s with
         | String c0 rest => Ok (byteZ c0 - byteZ "0", rest)
         | _ => Err errBad
         end
  else match s with
       | String c0 (String c1 rest) =>
           Ok ((byteZ c0 - byteZ "0") * 10 + (byteZ c1 - byteZ "0"), rest)
       | _ => Err errBad
       end.

(** [leadingInt(s)]: the leading decimal digits of [s] as a number, and
    the rest; [None] on overflow. *)
Fixpoint leadingInt (s : string) (x : Z) : option (Z * string) :=
  match s with
  | String c rest =>
      if negb (isDigitByte c) then Some (x, s)
      else if 9223372036854775808 / 10 <? x then None
      else
        let x := x * 10 + byteZ c - byteZ "0" in
        if 9223372036854775808 <? x then None else leadingInt rest x
  | EmptyString => Some (x, s)
  end.

(** [atoi(s)]: an optionally signed decimal number filling all of [s]. *)
Definition atoi (s : string) : result ParseError Z :=
  let '(neg, s) :=
    match s with
    | String c rest =>
        if Ascii.eqb c "-" then (true, rest)
        else if Ascii.eqb c "+" then (false, rest)
        else (false, s)
    | EmptyString => (false, s)
    end in
  match leadingInt s 0 with
  | Some (q, EmptyString) => Ok (if neg : bool then - q else q)
  | _ => Err errBad
  end.

Fixpoint cutspace (s : string) : string :=
  match s with
  | String c rest => if Ascii.eqb c " " then cutspace rest else s
  | EmptyString => s
  end.

(** [skip(value, prefix)]: drop [prefix] from the front of [value]; a
    space in the prefix stands for any run of spaces, also an empty one
    at the end of the value. *)
Fixpoint skip (fuel : nat) (value prefix : string) : result ParseError string :=
  match fuel with
  | O => Ok value
  | S fuel' =>
      match prefix with
      | EmptyString => Ok value
      | String p prefix' =>
          if Ascii.eqb p " " then
            match value with
            | String v _ =>
                if negb (Ascii.eqb v " ") then Err errBad
                else skip fuel' (cutspace value) (cutspace prefix)
            | EmptyString => skip fuel' (cutspace value) (cutspace prefix)
            end
          else
            match value with
            | String v value' =>
                if Ascii.eqb v p then skip fuel' value' prefix' else Err errBad
            | EmptyString => Err errBad
            end
      end
  end.

(** [match(s1, s2)] of two strings of the same length, and the slicing
    [val[0:len(v)]], [val[len(v):]] of [lookup], in one pass: the rest of
    [val] when it starts with [v] up to the case of letters. *)
Fixpoint matchPrefix (val v : string) {struct v} : option string :=
  match v with
  | EmptyString => Some val
  | String c2 v' =>
      match val with
      | EmptyString => None
      | String c1 val' =>
          if Ascii.eqb c1 c2 then matchPrefix val' v'
          else
            let l1 := Z.lor (byteZ c1) 32 in
            let l2 := Z.lor (byteZ c2) 32 in
            if negb (l1 =? l2) || (l1 <? byteZ "a") || (byteZ "z" <? l1)
            then None
            else matchPrefix val' v'
      end
  end.

(** [lookup(tab, val)]: the index of the first entry of [tab] that [val]
    starts with, and the rest of [val]. *)
Fixpoint lookup (tab : list string) (val : string) (i : Z)
  : result ParseError (Z * string) :=
  match tab with
  | [] => Err errBad
  | v :: tab' =>
      match matchPrefix val v with
      | Some rest => Ok (i, rest)
      | None => lookup tab' val (i + 1)
      end
  end.

(** [norm(hi, lo, base)] *)
Definition norm (hi lo base : Z) : Z * Z :=
  let '(hi, lo) :=
    if lo <? 0 then
      let n := Z.quot (- lo - 1) base + 1 in (hi - n, lo + n * base)
    else (hi, lo) in
  if base <=? lo then
    let n := Z.quot lo base in (hi + n, lo - n * base)
  else (hi, lo).

(** [daysSinceEpoch(year)]: days from the absolute epoch to the start of
    [year]. *)
Definition daysSinceEpoch (year : Z) : Z :=
  let y := uint64 (year - absoluteZeroYear) in
  let n := y / 400 in
  let y := y - 400 * n in
  let d := daysPer400Years * n in
  let n := y / 100 in
  let y := y - 100 * n in
  let d := d + daysPer100Years * n in
  let n := y / 4 in
  let y := y - 4 * n in
  let d := d + daysPer4Years * n in
  let n := y in
  d + 365 * n.

(** [Date(year, month, day, hour, min, sec, nsec, UTC)] *)
Definition Date (year month day hour min sec nsec : Z) : Time :=
  let m := month - 1 in
  let '(year, m) := norm year m 12 in
  let month := m + 1 in
  let '(sec, nsec) := norm sec nsec 1000000000 in
  let '(min, sec) := norm min sec 60 in
  let '(hour, min) := norm hour min 60 in
  let '(day, hour) := norm day hour 24 in
  let d := daysSinceEpoch year in
  let d := d + daysBeforeAt (month - 1) in
  let d := if isLeap year && (3 <=? month) then d + 1 else d in
  let d := d + (day - 1) in
  let abs := uint64 (d * secondsPerDay) in
  let abs := uint64 (abs + (hour * secondsPerHour + min * secondsPerMinute + sec)) in
  let unix := int64 (int64 abs + (absoluteToInternal + internalToUnix)) in
  mkTime unix nsec 0.

(** [daysIn(m, year)] *)
Definition daysIn (m year : Z) : Z :=
  if (m =? 2) && isLeap year then 29
  else daysBeforeAt m - daysBeforeAt (m - 1).

(** The time under construction in [parse]; [-1] marks a month, a day or
    a zone offset that the layout has not set. *)
Record fields := mkFields {
  f_year : Z; f_month : Z; f_day : Z; f_hour : Z; f_min : Z;
  f_zoneOffset : Z
}.

Definition noFields : fields := mkFields 0 (-1) (-1) 0 0 (-1).

(** What the checks at the end of an iteration of [parse] return: a range
    error goes before a malformed element. *)
Definition checked {A} (rangeErrString : string) (r : result ParseError A)
  : result ParseError A :=
  if negb (String.eqb rangeErrString "") then Err (errRange rangeErrString)
  else r.

(** One iteration of the loop of [parse]. *)
Definition parseChunk (c : chunk) (f : fields) (value : string)
  : result ParseError (fields * string) :=
  match c with
  | Lit prefix =>
      match skip (S (String.length prefix)) value prefix with
      | Ok value => Ok (f, value)
      | Err e => Err e
      end
  | stdYear =>
      match value with
      | String c0 (String c1 value') =>
          match atoi (String c0 (String c1 "")) with
          | Ok year =>
              let year := if 69 <=? year then year + 1900 else year + 2000 in
              Ok (mkFields year (f_month f) (f_day f) (f_hour f) (f_min f)
                    (f_zoneOffset f), value')
          | Err e => Err e
          end
      | _ => Err errBad
      end
  | stdMonth =>
      match lookup shortMonthNames value 0 with
      | Ok (month, value) =>
          Ok (mkFields (f_year f) (month + 1) (f_day f) (f_hour f) (f_min f)
                (f_zoneOffset f), value)
      | Err e => Err e
      end
  | stdZeroDay =>
      match getnum value true with
      | Ok (day, value) =>
          Ok (mkFields (f_year f) (f_month f) day (f_hour f) (f_min f)
                (f_zoneOffset f), value)
      | Err e => Err e
      end
  | stdHour =>
      let r := getnum value false in
      let hour := match r with Ok (hour, _) => hour | Err _ => 0 end in
      checked (if (hour <? 0) || (24 <=? hour) then "hour" else "")
        match r with
        | Ok (hour, value) =>
            Ok (mkFields (f_year f) (f_month f) (f_day f) hour (f_min f)
                  (f_zoneOffset f), value)
        | Err e => Err e
        end
  | stdZeroMinute =>
      let r := getnum value true in
      let min := match r with Ok (min, _) => min | Err _ => 0 end in
      checked (if (min <? 0) || (60 <=? min) then "minute" else "")
        match r with
        | Ok (min, value) =>
            Ok (mkFields (f_year f) (f_month f) (f_day f) (f_hour f) min
                  (f_zoneOffset f), value)
        | Err e => Err e
        end
  | stdNumTZ =>
      match value with
      | String sign (String h0 (String h1 (String m0 (String m1 value')))) =>
          let rh := getnum (String h0 (String h1 "")) true in
          let hr := match rh with Ok (hr, _) => hr | Err _ => 0 end in
          let rm :=
            match rh with
            | Ok _ => getnum (String m0 (String m1 "")) true
            | Err e => Err e
            end in
          let mm := match rm with Ok (mm, _) => mm | Err _ => 0 end in
          let rangeErrString := if 24 <? hr then "time zone offset hour" else "" in
          let rangeErrString :=
            if 60 <? mm then "time zone offset minute" else rangeErrString in
          let zoneOffset := (hr * 60 + mm) * 60 in
          checked rangeErrString
            match rm with
            | Err e => Err e
            | Ok _ =>
                if Ascii.eqb sign "+" then
                  Ok (mkFields (f_year f) (f_month f) (f_day f) (f_hour f)
                        (f_min f) zoneOffset, value')
                else if Ascii.eqb sign "-" then
                  Ok (mkFields (f_year f) (f_month f) (f_day f) (f_hour f)
                        (f_min f) (- zoneOffset), value')
                else Err errBad
            end
      | _ => Err errBad
      end
  end.

Fixpoint parseChunks (layout : list chunk) (f : fields) (value : string)
  : result ParseError (fields * string) :=
  match layout with
  | [] => Ok (f, value)
  | c :: layout' =>
      match parseChunk c f value with
      | Ok (f, value) => parseChunks layout' f value
      | Err e => Err e
      end
  end.

(** [Parse(layout, value)]: the layout must use up the value, the day
    must exist in the month, and the result is the UTC date moved by the
    zone offset that was read, in a zone with that offset. *)
Definition Parse (layout : list chunk) (value : string) : result ParseError Time :=
  match parseChunks layout noFields value with
  | Err e => Err e
  | Ok (f, value) =>
      if negb (String.eqb value "") then Err (errExtraText value)
      else
        let month := if f_month f <? 0 then 1 else f_month f in
        let day := if f_day f <? 0 then 1 else f_day f in
        if (day <? 1) || (daysIn month (f_year f) <? day) then Err errDayOutOfRange
        else
          let t := Date (f_year f) month day (f_hour f) (f_min f) 0 0 in
          if negb (f_zoneOffset f =? -1) then
            Ok (mkTime (int64 (unixSec t - f_zoneOffset f)) (nsec t) (f_zoneOffset f))
          else Ok t
  end.

End time.

(** ** Package unicode/utf8 *)
Module utf8.

Definition RuneError : Z := 65533.   (* U+FFFD *)
Definition locb : Z := 128.          (* 0b10000000 *)
Definition hicb : Z := 191.          (* 0b10111111 *)

(** The entry of table [first] for a leading byte [>= 0x80], as the size
    of the sequence and the range [acceptRanges] allows for the second
    byte; [None] is the entry [xx] of an invalid leading byte. *)
Definition first (s0 : Z) : option (Z * (Z * Z)) :=
  if s0 <? 194 then None                                  (* 0x80-0xC1 *)
  else if s0 <=? 223 then Some (2, (locb, hicb))          (* 0xC2-0xDF *)
  else if s0 =? 224 then Some (3, (160, hicb))            (* 0xE0 *)
  else if s0 <=? 236 then Some (3, (locb, hicb))          (* 0xE1-0xEC *)
  else if s0 =? 237 then Some (3, (locb, 159))            (* 0xED *)
  else if s0 <=? 239 then Some (3, (locb, hicb))          (* 0xEE-0xEF *)
  else if s0 =? 240 then Some (4, (144, hicb))            (* 0xF0 *)
  else if s0 <=? 243 then Some (4, (locb, hicb))          (* 0xF1-0xF3 *)
  else if s0 =? 244 then Some (4, (locb, 143))            (* 0xF4 *)
  else None.                                              (* 0xF5-0xFF *)

Definition byteAt (s : string) (i : nat) : option Z :=
  match String.get i s with Some c => Some (byteZ c) | None => None end.

(** [DecodeRuneInString(s)] for an [s] that starts with a byte [>= 0x80]:
    the rune and its width, [(RuneError, 1)] for an invalid or short
    encoding. *)
Definition DecodeRuneInString (s : string) : Z * Z :=
  match byteAt s 0 with
  | None => (RuneError, 0)
  | Some s0 =>
      match first s0 with
      | None => (RuneError, 1)
      | Some (sz, (lo, hi)) =>
          if Z.of_nat (String.length s) <? sz then (RuneError, 1)
          else
            match byteAt s 1 with
            | None => (RuneError, 1)
            | Some s1 =>
                if (s1 <? lo) || (hi <? s1) then (RuneError, 1)
                else if sz <=? 2 then
                  (Z.lor (Z.shiftl (Z.land s0 31) 6) (Z.land s1 63), 2)
                else
                  match byteAt s 2 with
                  | None => (RuneError, 1)
                  | Some s2 =>
                      if (s2 <? locb) || (hicb <? s2) then (RuneError, 1)
                      else if sz <=? 3 then
                        (Z.lor (Z.lor (Z.shiftl (Z.land s0 15) 12)
                                  (Z.shiftl (Z.land s1 63) 6))
                           (Z.land s2 63), 3)
                      else
                        match byteAt s 3 with
                        | None => (RuneError, 1)
                        | Some s3 =>
                            if (s3 <? locb) || (hicb <? s3) then (RuneError, 1)
                            else
                              (Z.lor (Z.lor (Z.lor (Z.shiftl (Z.land s0 7) 18)
                                               (Z.shiftl (Z.land s1 63) 12))
                                        (Z.shiftl (Z.land s2 63) 6))
                                 (Z.land s3 63), 4)
                        end
                  end
            end
      end
  end.

End utf8.

(** ** Package encoding/json *)
Module json.

(** The values [Marshal] meets by reflection, by kind: strings, structs
    (field names and values in declaration order), and two of the kinds
    it has no encoding for, with the name of their type. *)
#[warning="-register-all"]
Inductive Value :=
| VString (s : string)
| VStruct (fields : list (string * Value))
| VChan (typ : string)
| VFunc (typ : string).

(** What [Marshal] receives as [interface{}]: a value of any type that
    reflection can inspect. *)
Class Reflect (A : Type) := reflect : A -> Value.

#[export] Instance Reflect_string : Reflect string := VString.

Inductive error :=
| UnsupportedTypeError (typ : string).

(** [err.Error()] *)
Definition Error (e : error) : string :=
  match e with
  | UnsupportedTypeError typ => "json: unsupported type: " +:+ typ
  end.

Definition quote : ascii := "034"%char.

Definition hex (n : Z) : ascii :=
  match String.get (Z.to_nat n) "0123456789abcdef" with
  | Some c => c
  | None => "0"%char
  end.

(** [htmlSafeSet[b]] for [b < utf8.RuneSelf]: printable ASCII apart from
    the quote, the backslash and the three HTML characters. *)
Definition htmlSafeSet (b : Z) : bool :=
  (32 <=? b) && (b <? 128)
  && negb ((b =? 34) || (b =? 38) || (b =? 60) || (b =? 62) || (b =? 92)).

(** The [switch b] of [appendString]: the escape of an ASCII byte that
    is not in [htmlSafeSet] (with the short forms for backspace and form
    feed that Go 1.22 added). *)
Definition escapeByte (b : Z) : string :=
  if (b =? 92) || (b =? 34) then String "\" (String (zbyte b) "")
  else if b =? 8 then "\b"
  else if b =? 12 then "\f"
  else if b =? 10 then "\n"
  else if b =? 13 then "\r"
  else if b =? 9 then "\t"
  else "\u00" +:+ String (hex (Z.shiftr b 4)) (String (hex (Z.land b 15)) "").

(** The loop of [appendString(dst, src, escapeHTML = true)].  Go moves
    an index over [src] by the width of each rune; here the bytes of a
    rune after its first are passed one at a time, [pending] of them
    still to come, copied when [keep] is set and dropped otherwise. *)
Fixpoint appendStringLoop (src : string) (pending : nat) (keep : bool) : string :=
  match src with
  | EmptyString => ""
  | String b rest =>
      match pending with
      | S pending' =>
          if keep then String b (appendStringLoop rest pending' keep)
          else appendStringLoop rest pending' keep
      | O =>
          if byteZ b <? 128 then
            if htmlSafeSet (byteZ b) then String b (appendStringLoop rest 0 true)
            else escapeByte (byteZ b) +:+ appendStringLoop rest 0 true
          else
            let '(c, size) := utf8.DecodeRuneInString (substring 0 4 src) in
            if (c =? utf8.RuneError) && (size =? 1) then
              "\ufffd" +:+ appendStringLoop rest 0 true
            else if (c =? 8232) || (c =? 8233) then
              "\u202" +:+ String (hex (Z.land c 15))
                            (appendStringLoop rest (Z.to_nat size - 1) false)
            else String b (appendStringLoop rest (Z.to_nat size - 1) true)
      end
  end.

(** [appendString]: the string between quotes, escaped. *)
Definition appendString (src : string) : string :=
  String quote (appendStringLoop src 0 true) +:+ String quote "".

(** A struct field is encoded when its name is exported, that is,
    starts with an upper-case letter (the names here are ASCII). *)
Definition isExported (name : string) : bool :=
  match name with
  | String c _ => (byteZ "A" <=? byteZ c) && (byteZ c <=? byteZ "Z")
  | EmptyString => false
  end.

(** The encoders [newTypeEncoder] picks by kind.  A struct is written as
    an object of its exported fields under their names, in order. *)
Fixpoint encode (v : Value) : result error string :=
  match v with
  | VString s => Ok (appendString s)
  | VStruct fields =>
      let fix encodeFields (fs : list (string * Value)) (next : string)
        : result error string :=
        match fs with
        | [] => Ok ""
        | (name, fv) :: fs' =>
            if isExported name then
              match encode fv with
              | Err e => Err e
              | Ok s =>
                  match encodeFields fs' "," with
                  | Err e => Err e
                  | Ok tail => Ok (next +:+ appendString name +:+ ":" +:+ s +:+ tail)
                  end
              end
            else encodeFields fs' next
        end in
      match encodeFields fields "" with
      | Err e => Err e
      | Ok body => Ok ("{" +:+ body +:+ "}")
      end
  | VChan typ => Err (UnsupportedTypeError typ)
  | VFunc typ => Err (UnsupportedTypeError typ)
  end.

(** [json.Marshal(v)] *)
Definition Marshal {A} `{Reflect A} (v : A) : result error string :=
  encode (reflect v).

(** *** The reading side

    What a client gets back from a response body: the members of a JSON
    object whose values are strings, in order ([json.Unmarshal] into a
    map of strings sees the same members).  The reader is an automaton
    over the bytes; it gives up on a \u escape, which no text in this
    development contains. *)
Inductive rstate :=
| Start                              (* before the opening brace *)
| Members (first : bool)             (* before a key, or the closing brace *)
| InKey (k : string) (esc : bool)
| Colon (k : string)
| ValueStart (k : string)
| InValue (k v : string) (esc : bool)
| Next                               (* after a value *)
| Closed.

Definition isSpace (c : ascii) : bool :=
  Ascii.eqb c " " || Ascii.eqb c "009" || Ascii.eqb c "013" || Ascii.eqb c "010".

Definition unescape (c : ascii) : option ascii :=
  if Ascii.eqb c quote then Some quote
  else if Ascii.eqb c "\" then Some "\"%char
  else if Ascii.eqb c "/" then Some "/"%char
  else if Ascii.eqb c "b" then Some "008"%char
  else if Ascii.eqb c "f" then Some "012"%char
  else if Ascii.eqb c "n" then Some "010"%char
  else if Ascii.eqb c "r" then Some "013"%char
  else if Ascii.eqb c "t" then Some "009"%char
  else None.

Definition snoc (s : string) (c : ascii) : string := s +:+ String c "".

Fixpoint scan (s : string) (st : rstate) (acc : list (string * string))
  : option (list (string * string)) :=
  match s with
  | EmptyString => match st with Closed => Some acc | _ => None end
  | String c rest =>
      match st with
      | Start =>
          if isSpace c then scan rest Start acc
          else if Ascii.eqb c "{" then scan rest (Members true) acc
          else None
      | Members first =>
          if isSpace c then scan rest st acc
          else if Ascii.eqb c quote then scan rest (InKey "" false) acc
          else if first && Ascii.eqb c "}" then scan rest Closed acc
          else None
      | InKey k false =>
          if Ascii.eqb c quote then scan rest (Colon k) acc
          else if Ascii.eqb c "\" then scan rest (InKey k true) acc
          else if byteZ c <? 32 then None
          else scan rest (InKey (snoc k c) false) acc
      | InKey k true =>
          match unescape c with
          | Some d => scan rest (InKey (snoc k d) false) acc
          | None => None
          end
      | Colon k =>
          if isSpace c then scan rest st acc
          else if Ascii.eqb c ":" then scan rest (ValueStart k) acc
          else None
      | ValueStart k =>
          if isSpace c then scan rest st acc
          else if Ascii.eqb c quote then scan rest (InValue k "" false) acc
          else None
      | InValue k v false =>
          if Ascii.eqb c quote then scan rest Next (acc ++ [(k, v)])
          else if Ascii.eqb c "\" then scan rest (InValue k v true) acc
          else if byteZ c <? 32 then None
          else scan rest (InValue k (snoc v c) false) acc
      | InValue k v true =>
          match unescape c with
          | Some d => scan rest (InValue k (snoc v d) false) acc
          | None => None
          end
      | Next =>
          if isSpace c then scan rest st acc
          else if Ascii.eqb c "," then scan rest (Members false) acc
          else if Ascii.eqb c "}" then scan rest Closed acc
          else None
      | Closed => if isSpace c then scan rest Closed acc else None
      end
  end.

Definition readObject (text : string) : option (list (string * string)) :=
  scan text Start [].

(** The value of a member, the last one when the key repeats. *)
Definition member (key : string) (obj : list (string * string)) : option string :=
  match filter (fun kv => String.eqb (fst kv) key) obj with
  | [] => None
  | kvs => Some (snd (last kvs ("", "")))
  end.

End json.

(** ** Package net/http *)
Module http.

(** [http.Header]: the values of each header key. *)
Abbreviation Header := (gmap string (list string)).

Definition StatusOK : Z := 200.
Definition StatusInternalServerError : Z := 500.

(** The inbound request; the handler receives a pointer to it. *)
Record Request := mkRequest {
  Method : string;
  RequestURI : string;
  ReqHeader : Header;
  Body : string
}.

(** What the calls of a handler put into the response: the status line,
    with the headers as they stand at that moment, and body data.  What
    the server does around the handler (it adds headers such as Date,
    and leaves the body out of the answer to a HEAD request) is not part
    of the model. *)
Inductive sent :=
| SentHeader (code : Z) (h : Header)
| SentData (data : string).

(** The server's [ResponseWriter]: the header map the handler edits
    ([w.Header()]), whether the status line has gone out, and what the
    handler has put into the response so far. *)
Record ResponseWriter := mkResponse {
  handlerHeader : Header;
  wroteHeader : bool;
  wire : list sent
}.

(** The writer the server gives the handler for a new request. *)
Definition newResponse : ResponseWriter := mkResponse ∅ false [].

(** [w.Header().Set(key, value)]; both keys the program sets are already
    in canonical MIME form, so the key is stored as written. *)
Definition Header_Set (key value : string) (w : ResponseWriter) : ResponseWriter :=
  mkResponse (<[key := [value]]> (handlerHeader w)) (wroteHeader w) (wire w).

(** [w.Header().Del(key)] *)
Definition Header_Del (key : string) (w : ResponseWriter) : ResponseWriter :=
  mkResponse (delete key (handlerHeader w)) (wroteHeader w) (wire w).

(** [w.WriteHeader(code)]: the first call sends the status line with a
    snapshot of the headers; a later call is superfluous and ignored. *)
Definition WriteHeader (code : Z) (w : ResponseWriter) : ResponseWriter :=
  if wroteHeader w then w
  else mkResponse (handlerHeader w) true
         (wire w ++ [SentHeader code (handlerHeader w)]).

(** [w.Write(data)]: sends [StatusOK] first when no status line has gone
    out yet. *)
Definition Write (data : string) (w : ResponseWriter) : ResponseWriter :=
  let w := if wroteHeader w then w else WriteHeader StatusOK w in
  mkResponse (handlerHeader w) (wroteHeader w) (wire w ++ [SentData data]).

(** [fmt.Fprintln(w, s)]: one [Write] of [s] and a line feed. *)
Definition Fprintln (s : string) (w : ResponseWriter) : ResponseWriter :=
  Write (s +:+ String "010" "") w.

(** [http.Error(w, error, code)] *)
Definition Error (w : ResponseWriter) (error : string) (code : Z) : ResponseWriter :=
  let w := Header_Del "Content-Length" w in
  let w := Header_Set "Content-Type" "text/plain; charset=utf-8" w in
  let w := Header_Set "X-Content-Type-Options" "nosniff" w in
  let w := WriteHeader code w in
  Fprintln error w.

(** The response as the handler wrote it: the status code and headers
    of the status line, and the body data in order. *)
Fixpoint status (l : list sent) : option Z :=
  match l with
  | [] => None
  | SentHeader code _ :: _ => Some code
  | SentData _ :: l' => status l'
  end.

Fixpoint headers (l : list sent) : option Header :=
  match l with
  | [] => None
  | SentHeader _ h :: _ => Some h
  | SentData _ :: l' => headers l'
  end.

Fixpoint body (l : list sent) : string :=
  match l with
  | [] => ""
  | SentHeader _ _ :: l' => body l'
  | SentData data :: l' => data +:+ body l'
  end.

(** How many status lines, and how many writes of data, the response
    holds. *)
Definition statusLines (l : list sent) : nat :=
  length (filter (fun e => match e with SentHeader _ _ => true | _ => false end) l).
Definition dataWrites (l : list sent) : nat :=
  length (filter (fun e => match e with SentData _ => true | _ => false end) l).



(** [HandleFunc(pattern, handler)] on the default mux, then
    [ListenAndServe]: the routing table and the address of a server. *)
Record Server (H : Type) := mkServer {
  routes : list (string * H);
  Addr : string
}.
Arguments mkServer {H} routes Addr.
Arguments routes {H} s.
Arguments Addr {H} s.

End http.

(** * main.go *)

Record ServiceResult := mkServiceResult {
  FormattedTime : string;
  Greeting : string
}.

(** The struct as reflection shows it to [json.Marshal]. *)
#[export] Instance Reflect_ServiceResult : json.Reflect ServiceResult :=
  fun sr =>
    json.VStruct [("FormattedTime", json.VString (FormattedTime sr));
                  ("Greeting", json.VString (Greeting sr))].

Definition currentTime (c : time.Clock) : string * time.Clock :=
  let '(now, c) := time.Now c in
  (time.Format now time.RFC822Z, c).

(** Lines 23-28 of [handler]: what is written for either outcome of
    [json.Marshal]. *)
Definition respond (w : http.ResponseWriter) (res : result json.error string)
  : http.ResponseWriter :=
  match res with
  | Err err => http.Error w (json.Error err) http.StatusInternalServerError
  | Ok js => http.Write js (http.Header_Set "Content-Type" "application/json" w)
  end.

Definition handler (w : http.ResponseWriter) (r : http.Request) (c : time.Clock)
  : http.ResponseWriter * time.Clock :=
  let '(t, c) := currentTime c in
  let sr := mkServiceResult t "Hi there" in
  (respond w (json.Marshal sr), c).

(** [main]: the handler is registered for the pattern "/", and the
    server listens on the address ":80". *)
Definition main : http.Server (http.ResponseWriter -> http.Request -> time.Clock ->
                                http.ResponseWriter * time.Clock) :=
  http.mkServer [("/", handler)] ":80".


(** * main_test.go *)

(** Package testing, as far as the test uses it: a [*testing.T]
    remembers whether [Fail] was called. *)
Module testing.

Record T := mkT { failed : bool }.

(** [t.Fail()] *)
Definition Fail (t : T) : T := mkT true.

End testing.

Definition TestCurrentTime (t : testing.T) (c : time.Clock) : testing.T * time.Clock :=
  let '(result, c) := currentTime c in
  match time.Parse time.RFC822Z result with
  | Err _ => (testing.Fail t, c)
  | Ok _ => (t, c)
  end.

(** * The first version of the program: src/unnamed/part_000

    The first handler serialised the bare [time.Time].  [json.Marshal]
    hands such a value to the type's own [MarshalJSON], and passes the
    text that method returns through the scanner that checks and compacts
    JSON.  The library routines on that path follow; the handler itself
    comes after them. *)

(** [b[i]], the byte at an index.  Go panics when [i] is out of range;
    the indices that [appendStrictRFC3339] takes are in range for every
    time (see [strict_indices_in_range]), and [appendCompact] guards its
    own, so the default is never returned. *)
Definition index (b : string) (i : nat) : Z :=
  match String.get i b with
  | Some c => byteZ c
  | None => 0
  end.

(** ** Package time: [Time.MarshalJSON] (time.go, format_rfc3339.go) *)
Module time_json.

(** [t.Nanosecond()] *)
Definition Nanosecond (t : time.Time) : Z := time.nsec t.

(** [for len(b) > 0 && b[len(b)-1] == c { b = b[:len(b)-1] }] *)
Fixpoint trimRight (c : ascii) (b : string) : string :=
  match b with
  | EmptyString => EmptyString
  | String x rest =>
      match trimRight c rest with
      | EmptyString => if Ascii.eqb x c then EmptyString else String x EmptyString
      | rest' => String x rest'
      end
  end.

(** [if len(b) > 0 && b[len(b)-1] == c { b = b[:len(b)-1] }] *)
Fixpoint dropLast (c : ascii) (b : string) : string :=
  match b with
  | EmptyString => EmptyString
  | String x EmptyString => if Ascii.eqb x c then EmptyString else b
  | String x rest => String x (dropLast c rest)
  end.

(** [appendNano(b, nanosec, std)] for the one [std] that RFC 3339 uses:
    [stdFracSecond9] with nine digits after the separator ".", where
    trailing zeros are trimmed and a zero fraction is left out. *)
Definition appendNano (b : string) (nanosec : Z) : string :=
  if nanosec =? 0 then b
  else
    let b := b +:+ "." in
    let b := b +:+ time.appendInt nanosec 9 in
    let b := trimRight "0" b in
    dropLast "." b.

(** [t.appendFormatRFC3339(b, nanos)] *)
Definition appendFormatRFC3339 (t : time.Time) (b : string) (nanos : bool) : string :=
  let offset := time.offset t in
  let abs := time.abs t in
  (* Format date. *)
  let '(year, month, day, _) := time.absDate abs in
  let b := b +:+ time.appendInt year 4 in
  let b := b +:+ "-" in
  let b := b +:+ time.appendInt month 2 in
  let b := b +:+ "-" in
  let b := b +:+ time.appendInt day 2 in
  let b := b +:+ "T" in
  (* Format time. *)
  let '(hour, min, sec) := time.absClock abs in
  let b := b +:+ time.appendInt hour 2 in
  let b := b +:+ ":" in
  let b := b +:+ time.appendInt min 2 in
  let b := b +:+ ":" in
  let b := b +:+ time.appendInt sec 2 in
  let b := if nanos then appendNano b (Nanosecond t) else b in
  if offset =? 0 then b +:+ "Z"
  else
    (* Format zone. *)
    let zone := Z.quot offset 60 in
    let '(b, zone) := if zone <? 0 then (b +:+ "-", - zone) else (b +:+ "+", zone) in
    let b := b +:+ time.appendInt (Z.quot zone 60) 2 in
    let b := b +:+ ":" in
    b +:+ time.appendInt (Z.rem zone 60) 2.

(** Arithmetic on a [byte] wraps around at 256. *)
Definition uint8 (x : Z) : Z := x mod 256.

(** [num2 := func(b []byte) byte { return 10*(b[0]-'0') + (b[1] - '0') }] *)
Definition num2 (b : string) : Z :=
  uint8 (10 * uint8 (index b 0 - byteZ "0") + uint8 (index b 1 - byteZ "0")).

(** [t.appendStrictRFC3339(b)]: the text, and the error if it is not
    valid RFC 3339. *)
Definition appendStrictRFC3339 (t : time.Time) (b : string) : string * option string :=
  let n0 := String.length b in
  let b := appendFormatRFC3339 t b true in
  if negb (index b (n0 + String.length "9999") =? byteZ "-") then
    (* year must be exactly 4 digits wide *)
    (b, Some "year outside of range [0,9999]")
  else if negb (index b (String.length b - 1) =? byteZ "Z") then
    let c := index b (String.length b - String.length "Z07:00") in
    if ((byteZ "0" <=? c) && (c <=? byteZ "9"))
       || (24 <=? num2 (substring (String.length b - String.length "07:00")
                                  (String.length "07:00") b))
    then (b, Some "timezone hour outside of range [0,23]")
    else (b, None)
  else (b, None).

(** [t.MarshalJSON()] *)
Definition MarshalJSON (t : time.Time) : result string string :=
  let b := String json.quote "" in
  let '(b, err) := appendStrictRFC3339 t b in
  let b := b +:+ String json.quote "" in
  match err with
  | Some err => Err ("Time.MarshalJSON: " +:+ err)
  | None => Ok b
  end.

End time_json.

(** ** Package json: the scanner (scanner.go) *)
Module json_scanner.

(** What a step reports about the byte it was given. *)
Definition scanContinue : Z := 0.
Definition scanBeginLiteral : Z := 1.
Definition scanBeginObject : Z := 2.
Definition scanObjectKey : Z := 3.
Definition scanObjectValue : Z := 4.
Definition scanEndObject : Z := 5.
Definition scanBeginArray : Z := 6.
Definition scanArrayValue : Z := 7.
Definition scanEndArray : Z := 8.
Definition scanSkipSpace : Z := 9.
Definition scanEnd : Z := 10.
Definition scanError : Z := 11.

(** What the scanner is in the middle of: an entry of [s.parseState]. *)
Inductive parseState :=
| parseObjectKey
| parseObjectValue
| parseArrayValue.

Definition maxNestingDepth : Z := 10000.

(** The state functions that [s.step] can hold. *)
Inductive stateFn :=
| BeginValueOrEmpty | BeginValue | BeginStringOrEmpty | BeginString
| EndValue | EndTop
| InString | InStringEsc | InStringEscU | InStringEscU1 | InStringEscU12 | InStringEscU123
| Neg | Num1 | Num0 | Dot | Dot0 | Exp | ESign | E0
| LitT | LitTr | LitTru | LitF | LitFa | LitFal | LitFals | LitN | LitNu | LitNul
| Failed.

(** The scanner.  The stack [parseState] is a slice that grows at its
    end; here its last element is the head of the list.  [err] holds the
    message of the [*SyntaxError]. *)
Record scanner := mkScanner {
  step : stateFn;
  endTop : bool;
  parseStack : list parseState;
  err : option string
}.

(** [s.reset()] *)
Definition reset : scanner := mkScanner BeginValue false [] None.

Definition withStep (f : stateFn) (s : scanner) : scanner :=
  mkScanner f (endTop s) (parseStack s) (err s).
Definition withStack (l : list parseState) (s : scanner) : scanner :=
  mkScanner (step s) (endTop s) l (err s).

Definition lowerhex (n : Z) : ascii := json.hex n.

(** [strconv.IsPrint(r)] for [r <= 0xFF], its fast check for Latin-1. *)
Definition IsPrintLatin1 (r : Z) : bool :=
  if (32 <=? r) && (r <=? 126) then true
  else if (161 <=? r) && (r <=? 255) then negb (r =? 173)
  else false.

(** [strconv.Quote(string(c))] without its first and last byte: the rune
    whose code is the byte [c], escaped as in a Go string literal. *)
Definition quotedRune (c : Z) : string :=
  if (c =? 34) || (c =? 92) then String "\" (String (zbyte c) "")
  else if IsPrintLatin1 c then
    if c <? 128 then String (zbyte c) ""
    else String (zbyte (Z.lor 192 (Z.shiftr c 6))) (String (zbyte (Z.lor 128 (Z.land c 63))) "")
  else if c =? 7 then "\a"
  else if c =? 8 then "\b"
  else if c =? 12 then "\f"
  else if c =? 10 then "\n"
  else if c =? 13 then "\r"
  else if c =? 9 then "\t"
  else if c =? 11 then "\v"
  else if (c <? 32) || (c =? 127) then
    "\x" +:+ String (lowerhex (Z.shiftr c 4)) (String (lowerhex (Z.land c 15)) "")
  else
    "\u00" +:+ String (lowerhex (Z.shiftr c 4)) (String (lowerhex (Z.land c 15)) "").

(** [quoteChar(c)] *)
Definition quoteChar (c : ascii) : string :=
  if Ascii.eqb c "'" then "'\''"
  else if Ascii.eqb c json.quote then String "'" (String json.quote "'")
  else "'" +:+ quotedRune (byteZ c) +:+ "'".

(** [s.error(c, context)] *)
Definition error (s : scanner) (c : ascii) (context : string) : scanner * Z :=
  (mkScanner Failed (endTop s) (parseStack s)
     (Some ("invalid character " +:+ quoteChar c +:+ " " +:+ context)),
   scanError).

(** [s.pushParseState(c, newParseState, successState)] *)
Definition pushParseState (s : scanner) (c : ascii) (newParseState : parseState)
  (successState : Z) : scanner * Z :=
  let s := withStack (newParseState :: parseStack s) s in
  if Z.of_nat (length (parseStack s)) <=? maxNestingDepth then (s, successState)
  else error s c "exceeded max depth".

(** [s.popParseState()] *)
Definition popParseState (s : scanner) : scanner :=
  let l := tl (parseStack s) in
  match l with
  | [] => mkScanner EndTop true l (err s)
  | _ => mkScanner EndValue (endTop s) l (err s)
  end.

Definition isSpace (c : ascii) : bool :=
  (byteZ c <=? byteZ " ") &&
  (Ascii.eqb c " " || Ascii.eqb c "009" || Ascii.eqb c "013" || Ascii.eqb c "010").

Definition isDigit (c : ascii) : bool := (byteZ "0" <=? byteZ c) && (byteZ c <=? byteZ "9").
Definition isDigit19 (c : ascii) : bool := (byteZ "1" <=? byteZ c) && (byteZ c <=? byteZ "9").
Definition isHex (c : ascii) : bool :=
  isDigit c || ((byteZ "a" <=? byteZ c) && (byteZ c <=? byteZ "f"))
  || ((byteZ "A" <=? byteZ c) && (byteZ c <=? byteZ "F")).

(** [stateEndTop]: after the top-level value; only space may follow, and
    a byte that is none is complained about on the next call. *)
Definition stateEndTop (s : scanner) (c : ascii) : scanner * Z :=
  if negb (isSpace c) then (fst (error s c "after top-level value"), scanEnd)
  else (s, scanEnd).

(** [stateEndValue]: after a value, such as after reading [{}] or [true]
    or [["x"]. *)
Definition stateEndValue (s : scanner) (c : ascii) : scanner * Z :=
  match parseStack s with
  | [] =>
      (* Completed top-level before the current byte. *)
      stateEndTop (mkScanner EndTop true (parseStack s) (err s)) c
  | ps :: below =>
      if isSpace c then (withStep EndValue s, scanSkipSpace)
      else
        match ps with
        | parseObjectKey =>
            if Ascii.eqb c ":" then
              (withStep BeginValue (withStack (parseObjectValue :: below) s), scanObjectKey)
            else error s c "after object key"
        | parseObjectValue =>
            if Ascii.eqb c "," then
              (withStep BeginString (withStack (parseObjectKey :: below) s), scanObjectValue)
            else if Ascii.eqb c "}" then (popParseState s, scanEndObject)
            else error s c "after object key:value pair"
        | parseArrayValue =>
            if Ascii.eqb c "," then (withStep BeginValue s, scanArrayValue)
            else if Ascii.eqb c "]" then (popParseState s, scanEndArray)
            else error s c "after array element"
        end
  end.

(** [stateBeginValue]: at the beginning of the input or of a value. *)
Definition stateBeginValue (s : scanner) (c : ascii) : scanner * Z :=
  if isSpace c then (s, scanSkipSpace)
  else if Ascii.eqb c "{" then
    pushParseState (withStep BeginStringOrEmpty s) c parseObjectKey scanBeginObject
  else if Ascii.eqb c "[" then
    pushParseState (withStep BeginValueOrEmpty s) c parseArrayValue scanBeginArray
  else if Ascii.eqb c json.quote then (withStep InString s, scanBeginLiteral)
  else if Ascii.eqb c "-" then (withStep Neg s, scanBeginLiteral)
  else if Ascii.eqb c "0" then (withStep Num0 s, scanBeginLiteral)
  else if Ascii.eqb c "t" then (withStep LitT s, scanBeginLiteral)
  else if Ascii.eqb c "f" then (withStep LitF s, scanBeginLiteral)
  else if Ascii.eqb c "n" then (withStep LitN s, scanBeginLiteral)
  else if isDigit19 c then (withStep Num1 s, scanBeginLiteral)
  else error s c "looking for beginning of value".

(** [stateBeginValueOrEmpty]: after reading [[]. *)
Definition stateBeginValueOrEmpty (s : scanner) (c : ascii) : scanner * Z :=
  if isSpace c then (s, scanSkipSpace)
  else if Ascii.eqb c "]" then stateEndValue s c
  else stateBeginValue s c.

(** [stateBeginString]: after reading [{"key": value,]. *)
Definition stateBeginString (s : scanner) (c : ascii) : scanner * Z :=
  if isSpace c then (s, scanSkipSpace)
  else if Ascii.eqb c json.quote then (withStep InString s, scanBeginLiteral)
  else error s c "looking for beginning of object key string".

(** [stateBeginStringOrEmpty]: after reading [{]. *)
Definition stateBeginStringOrEmpty (s : scanner) (c : ascii) : scanner * Z :=
  if isSpace c then (s, scanSkipSpace)
  else if Ascii.eqb c "}" then
    stateEndValue (withStack (parseObjectValue :: tl (parseStack s)) s) c
  else stateBeginString s c.

(** One more letter [want] of a literal, then the state [next]. *)
Definition literal (s : scanner) (c : ascii) (want : ascii) (next : stateFn)
  (context : string) : scanner * Z :=
  if Ascii.eqb c want then (withStep next s, scanContinue)
  else error s c context.

Definition stateESign (s : scanner) (c : ascii) : scanner * Z :=
  if isDigit c then (withStep E0 s, scanContinue)
  else error s c "in exponent of numeric literal".

Definition state0 (s : scanner) (c : ascii) : scanner * Z :=
  if Ascii.eqb c "." then (withStep Dot s, scanContinue)
  else if Ascii.eqb c "e" || Ascii.eqb c "E" then (withStep Exp s, scanContinue)
  else stateEndValue s c.

(** [s.step(s, c)]: the state function that [s.step] holds, applied. *)
Definition run (s : scanner) (c : ascii) : scanner * Z :=
  match step s with
  | BeginValueOrEmpty => stateBeginValueOrEmpty s c
  | BeginValue => stateBeginValue s c
  | BeginStringOrEmpty => stateBeginStringOrEmpty s c
  | BeginString => stateBeginString s c
  | EndValue => stateEndValue s c
  | EndTop => stateEndTop s c
  | InString =>
      if Ascii.eqb c json.quote then (withStep EndValue s, scanContinue)
      else if Ascii.eqb c "\" then (withStep InStringEsc s, scanContinue)
      else if byteZ c <? 32 then error s c "in string literal"
      else (s, scanContinue)
  | InStringEsc =>
      if Ascii.eqb c "b" || Ascii.eqb c "f" || Ascii.eqb c "n" || Ascii.eqb c "r"
         || Ascii.eqb c "t" || Ascii.eqb c "\" || Ascii.eqb c "/" || Ascii.eqb c json.quote
      then (withStep InString s, scanContinue)
      else if Ascii.eqb c "u" then (withStep InStringEscU s, scanContinue)
      else error s c "in string escape code"
  | InStringEscU =>
      if isHex c then (withStep InStringEscU1 s, scanContinue)
      else error s c "in \u hexadecimal character escape"
  | InStringEscU1 =>
      if isHex c then (withStep InStringEscU12 s, scanContinue)
      else error s c "in \u hexadecimal character escape"
  | InStringEscU12 =>
      if isHex c then (withStep InStringEscU123 s, scanContinue)
      else error s c "in \u hexadecimal character escape"
  | InStringEscU123 =>
      if isHex c then (withStep InString s, scanContinue)
      else error s c "in \u hexadecimal character escape"
  | Neg =>
      if Ascii.eqb c "0" then (withStep Num0 s, scanContinue)
      else if isDigit19 c then (withStep Num1 s, scanContinue)
      else error s c "in numeric literal"
  | Num1 =>
      if isDigit c then (withStep Num1 s, scanContinue)
      else state0 s c
  | Num0 => state0 s c
  | Dot =>
      if isDigit c then (withStep Dot0 s, scanContinue)
      else error s c "after decimal point in numeric literal"
  | Dot0 =>
      if isDigit c then (s, scanContinue)
      else if Ascii.eqb c "e" || Ascii.eqb c "E" then (withStep Exp s, scanContinue)
      else stateEndValue s c
  | Exp =>
      if Ascii.eqb c "+" || Ascii.eqb c "-" then (withStep ESign s, scanContinue)
      else stateESign s c
  | ESign => stateESign s c
  | E0 =>
      if isDigit c then (s, scanContinue)
      else stateEndValue s c
  | LitT => literal s c "r" LitTr "in literal true (expecting 'r')"
  | LitTr => literal s c "u" LitTru "in literal true (expecting 'u')"
  | LitTru => literal s c "e" EndValue "in literal true (expecting 'e')"
  | LitF => literal s c "a" LitFa "in literal false (expecting 'a')"
  | LitFa => literal s c "l" LitFal "in literal false (expecting 'l')"
  | LitFal => literal s c "s" LitFals "in literal false (expecting 's')"
  | LitFals => literal s c "e" EndValue "in literal false (expecting 'e')"
  | LitN => literal s c "u" LitNu "in literal null (expecting 'u')"
  | LitNu => literal s c "l" LitNul "in literal null (expecting 'l')"
  | LitNul => literal s c "l" EndValue "in literal null (expecting 'l')"
  | Failed => (s, scanError)
  end.

(** [s.eof()]: the scanner is told that the input has ended. *)
Definition eof (s : scanner) : scanner * Z :=
  match err s with
  | Some _ => (s, scanError)
  | None =>
      if endTop s then (s, scanEnd)
      else
        let s := fst (run s " ") in
        if endTop s then (s, scanEnd)
        else
          match err s with
          | Some _ => (s, scanError)
          | None =>
              (mkScanner (step s) (endTop s) (parseStack s)
                 (Some "unexpected end of JSON input"), scanError)
          end
  end.

End json_scanner.

(** ** Package json: [appendCompact] (indent.go) *)
Module json_indent.

Import json_scanner.

(** [dst = append(dst, src[start:i]...)] when [start < i]. *)
Definition flush (src : string) (start i : nat) (dst : string) : string :=
  if (start <? i)%nat then dst +:+ substring start (i - start) src else dst.

(** The loop [for i, c := range src] of [appendCompact]: [rest] is
    [src[i:]], and the loop variables are [start], [dst] and the scanner.
    The loop ends at the end of [src], or when the scanner reports an
    error. *)
Fixpoint compactLoop (src : string) (escape : bool) (rest : string) (i start : nat)
  (dst : string) (scan : scanner) {struct rest} : nat * string * scanner :=
  match rest with
  | EmptyString => (start, dst, scan)
  | String c rest' =>
      let '(start, dst) :=
        if escape && (Ascii.eqb c "<" || Ascii.eqb c ">" || Ascii.eqb c "&") then
          (S i,
           flush src start i dst +:+ "\u00" +:+
           String (json.hex (Z.shiftr (byteZ c) 4)) (String (json.hex (Z.land (byteZ c) 15)) ""))
        else (start, dst) in
      (* Convert U+2028 and U+2029 (E2 80 A8 and E2 80 A9). *)
      let '(start, dst) :=
        if escape && (byteZ c =? 226) && (i + 2 <? String.length src)%nat
           && (index src (i + 1) =? 128)
           && (Z.land (index src (i + 2)) 254 =? 168) then
          ((i + 3)%nat,
           flush src start i dst +:+ "\u202" +:+
           String (json.hex (Z.land (index src (i + 2)) 15)) "")
        else (start, dst) in
      let '(scan, v) := run scan c in
      if scanSkipSpace <=? v then
        if v =? scanError then (start, dst, scan)
        else compactLoop src escape rest' (S i) (S i) (flush src start i dst) scan
      else compactLoop src escape rest' (S i) start dst scan
  end.

(** [appendCompact(dst, src, escape)]: [src] without insignificant space,
    or the syntax error in it. *)
Definition appendCompact (dst src : string) (escape : bool) : result string string :=
  let '(start, dst, scan) := compactLoop src escape src 0 0 dst reset in
  let '(scan, v) := eof scan in
  if v =? scanError then
    Err (match err scan with Some msg => msg | None => "" end)
  else
    Ok (if (start <? String.length src)%nat
        then dst +:+ substring start (String.length src - start) src
        else dst).

End json_indent.

(** ** Package json: values that marshal themselves (encode.go) *)
Module json_encode.

(** The interface [json.Marshaler], with the name that reflection
    gives the type. *)
Class Marshaler (A : Type) := {
  typeString : string;
  MarshalJSON : A -> result string string
}.
Arguments typeString A {_}.

#[global] Instance Marshaler_Time : Marshaler time.Time := {
  typeString := "time.Time";
  MarshalJSON := time_json.MarshalJSON
}.

(** [*MarshalerError] *)
Record MarshalerError := mkMarshalerError {
  Type_ : string;
  Err_ : string;
  sourceFunc : string
}.

(** [e.Error()] *)
Definition Error (e : MarshalerError) : string :=
  let srcFunc := if String.eqb (sourceFunc e) "" then "MarshalJSON" else sourceFunc e in
  "json: error calling " +:+ srcFunc +:+ " for type " +:+ Type_ e +:+ ": " +:+ Err_ e.

(** [marshalerEncoder]: the value's own text, checked and compacted. *)
Definition marshalerEncoder {A} `{Marshaler A} (v : A) : result MarshalerError string :=
  match MarshalJSON v with
  | Ok b =>
      match json_indent.appendCompact "" b true with
      | Ok out => Ok out
      | Err err => Err (mkMarshalerError (typeString A) err "MarshalJSON")
      end
  | Err err => Err (mkMarshalerError (typeString A) err "MarshalJSON")
  end.

(** [json.Marshal(v)] for a [v] whose type implements [Marshaler]. *)
Definition Marshal {A} `{Marshaler A} (v : A) : result MarshalerError string :=
  marshalerEncoder v.

End json_encode.

(** ** The handler and [main] of the first version *)
Module first_version.

Definition handler (w : http.ResponseWriter) (r : http.Request) (c : time.Clock)
  : http.ResponseWriter * time.Clock :=
  let '(t, c) := time.Now c in
  match json_encode.Marshal t with
  | Err err =>
      (http.Error w (json_encode.Error err) http.StatusInternalServerError, c)
  | Ok js =>
      (http.Write js (http.Header_Set "Content-Type" "application/json" w), c)
  end.

Definition main : http.Server (http.ResponseWriter -> http.Request -> time.Clock ->
                                http.ResponseWriter * time.Clock) :=
  http.mkServer [("/", handler)] ":8080".

End first_version.

(** * Vocabulary of the statements *)

(** A text between double quotes. *)
Definition quoted (s : string) : string :=
  String json.quote (s +:+ String json.quote "").

(** Bytes that [appendString] copies as they are. *)
Definition plainByte (c : ascii) : bool := json.htmlSafeSet (byteZ c).

(** Texts made of such bytes. *)
Fixpoint plain (s : string) : bool :=
  match s with
  | EmptyString => true
  | String c rest => plainByte c && plain rest
  end.

(** The body of a successful response whose formatted time is [t]. *)
Definition successBody (t : string) : string :=
  "{" +:+ quoted "FormattedTime" +:+ ":" +:+ quoted t +:+ "," +:+
  quoted "Greeting" +:+ ":" +:+ quoted "Hi there" +:+ "}".

(** The header map of a successful response that started from [h]. *)
Definition jsonHeader (h : http.Header) : http.Header :=
  <["Content-Type" := ["application/json"]]> h.

(** The header map [http.Error] leaves when it started from [h]. *)
Definition errorHeader (h : http.Header) : http.Header :=
  <["X-Content-Type-Options" := ["nosniff"]]>
    (<["Content-Type" := ["text/plain; charset=utf-8"]]> (delete "Content-Length" h)).

(** The line feed that [fmt.Fprintln] ends its output with. *)
Definition LF : string := String "010" "".

(** What the handler puts into the response when it is given the writer
    of a new request, with any headers [h] the server put there. *)
Definition served (h : http.Header) (r : http.Request) (c : time.Clock) : list http.sent :=
  http.wire (fst (handler (http.mkResponse h false []) r c)).

(** The wall-clock time 2016-09-23T11:39:00+01:00: the UTC date with
    these fields, moved back by the zone offset, in a zone one hour east. *)
Definition t_2016_09_23_1139 : time.Time :=
  time.mkTime (time.unixSec (time.Date 2016 9 23 11 39 0 0) - 3600) 0 3600.

(** What lines 23-28 put into the response for an outcome [res] of
    [json.Marshal], on the writer of a new request. *)
Definition responded (h : http.Header) (res : result json.error string) : list http.sent :=
  http.wire (respond (http.mkResponse h false []) res).


(** [absDate] in two halves.  The first: the year and the day of the
    year of day [d] since the absolute epoch. *)
Definition yearDay (d : Z) : Z * Z :=
  let n1 := d / 146097 in
  let d1 := d - 146097 * n1 in
  let n2r := d1 / 36524 in
  let n2 := n2r - Z.shiftr n2r 2 in
  let d2 := d1 - 36524 * n2 in
  let n3 := d2 / 1461 in
  let d3 := d2 - 1461 * n3 in
  let n4r := d3 / 365 in
  let n4 := n4r - Z.shiftr n4r 2 in
  (400 * n1 + 100 * n2 + 4 * n3 + n4 + time.absoluteZeroYear, d3 - 365 * n4).

(** The second half: month and day of the month of day [yday] of a year
    that is a leap year or not. *)
Definition monthDay (leap : bool) (yday : Z) : Z * Z :=
  if leap && (yday =? 59) then (2, 29)
  else
    let day := if leap && (59 <? yday) then yday - 1 else yday in
    let month := day / 31 in
    let end_ := time.daysBeforeAt (month + 1) in
    let '(month, begin) :=
      if end_ <=? day then (month + 1, end_) else (month, time.daysBeforeAt month) in
    (month + 1, day - begin + 1).

(** [monthDay] returns a month and a day that exist and that lie [yday]
    days into the year. *)
Definition monthDay_ok (leap : bool) (yday : Z) : bool :=
  let '(m, dd) := monthDay leap yday in
  (1 <=? m) && (m <=? 12) && (1 <=? dd) &&
  (dd <=? (if (m =? 2) && leap then 29
           else time.daysBeforeAt m - time.daysBeforeAt (m - 1))) &&
  (time.daysBeforeAt (m - 1) + (if leap && (3 <=? m) then 1 else 0) + (dd - 1) =? yday).

(** The seconds between the absolute epoch and the Unix epoch. *)
Definition unixToAbsolute : Z := time.unixToInternal + time.internalToAbsolute.

(** A number below 100 as two decimal digits. *)
Definition two (n : Z) : string :=
  String (time.digit (n / 10)) (String (time.digit (n mod 10)) "").

(** A text that does not start with a space. *)
Definition noSpaceAhead (s : string) : Prop :=
  match s with String c _ => Ascii.eqb c " " = false | EmptyString => True end.

(** The year [parse] makes of two digits. *)
Definition century (yy : Z) : Z := if 69 <=? yy then yy + 1900 else yy + 2000.

(** The two-digit year that [Format] writes for [year]. *)
Definition yearDigits (year : Z) : Z := Z.rem (if year <? 0 then - year else year) 100.

(** The zone offset that comes back: the offset of [t] cut to minutes. *)
Definition zoneMinutes (t : time.Time) : Z := Z.quot (time.offset t) 60 * 60.

(** An instant whose absolute second count fits the [uint64] that
    [t.abs()] returns: not before the absolute zero year -292277022399
    (of which the package says that times before it will not compute
    correctly), and for over 584 thousand million years after it. *)
Definition representable (t : time.Time) : Prop :=
  0 <= time.unixSec t + time.offset t + unixToAbsolute < 2 ^ 64.

(** The wall-clock minute of an instant in its zone, counted from the
    Unix epoch. *)
Definition wallMinute (t : time.Time) : Z := (time.unixSec t + time.offset t) / 60.

(** [t.Year()] *)
Definition Year (t : time.Time) : Z := fst (fst (fst (time.absDate (time.abs t)))).

(** The layout as a pattern: what a text in the format RFC822Z looks
    like for given fields. *)
Definition RFC822Z_text (day month yy hour min : Z) (neg : bool) (zh zm : Z) : string :=
  two day +:+ " " +:+ nth (Z.to_nat (month - 1)) time.shortMonthNames "" +:+ " " +:+
  two yy +:+ " " +:+ two hour +:+ ":" +:+ two min +:+ " " +:+
  (if neg then "-" else "+") +:+ two zh +:+ two zm.

(** A text that has the pattern, for fields in their ranges. *)
Definition wellFormed (s : string) : Prop :=
  exists day month yy hour min neg zh zm,
    1 <= day <= 31 /\ 1 <= month <= 12 /\ 0 <= yy < 100 /\
    0 <= hour < 24 /\ 0 <= min < 60 /\ 0 <= zh < 24 /\ 0 <= zm < 60 /\
    s = RFC822Z_text day month yy hour min neg zh zm.


(** ** Vocabulary for the first version *)

(** A number below 10000 as four decimal digits. *)
Definition four (n : Z) : string := two (n / 100) +:+ two (n mod 100).

(** The fraction of a second in RFC 3339 text: nothing when it is zero,
    else a point and the nine digits of the nanoseconds without their
    trailing zeros. *)
Definition fraction (nsec : Z) : string :=
  if nsec =? 0 then ""
  else "." +:+ time_json.trimRight "0" (time.appendInt nsec 9).

(** The zone in RFC 3339 text: Z for an offset of zero, else sign, hours
    and minutes. *)
Definition zoneSuffix (offset : Z) : string :=
  if offset =? 0 then "Z"
  else
    let zone := Z.quot offset 60 in
    let az := if zone <? 0 then - zone else zone in
    (if zone <? 0 then "-" else "+") +:+ two (Z.quot az 60) +:+ ":" +:+ two (Z.rem az 60).

(** What a time looks like in RFC 3339 with nanoseconds, for given
    fields: the date and the time of day, then the zone. *)
Definition RFC3339_local (year month day hour min sec nsec : Z) : string :=
  four year +:+ "-" +:+ two month +:+ "-" +:+ two day +:+ "T" +:+
  two hour +:+ ":" +:+ two min +:+ ":" +:+ two sec +:+ fraction nsec.

Definition RFC3339_text (year month day hour min sec nsec offset : Z) : string :=
  RFC3339_local year month day hour min sec nsec +:+ zoneSuffix offset.

(** Texts whose bytes all satisfy [p]. *)
Fixpoint every (p : ascii -> bool) (s : string) : bool :=
  match s with
  | EmptyString => true
  | String c rest => p c && every p rest
  end.

(** The bytes that [appendInt] writes: digits and the minus sign. *)
Definition numeric (c : ascii) : bool := time.isDigitByte c || Ascii.eqb c "-".



(** What the first handler puts into the response on the writer of a
    new request. *)
Definition served_first (h : http.Header) (r : http.Request) (c : time.Clock)
  : list http.sent :=
  http.wire (fst (first_version.handler (http.mkResponse h false []) r c)).

(** The scanner inside a string literal at the top level. *)
Definition inString : json_scanner.scanner :=
  json_scanner.mkScanner json_scanner.InString false [] None.

(** * Properties *)

(** ** Strings *)

Lemma append_assoc (a b c : string) : (a +:+ b) +:+ c = a +:+ (b +:+ c).
Proof. induction a as [|x a IH]; simpl; [reflexivity | now rewrite IH]. Qed.

Lemma append_empty_r (a : string) : a +:+ "" = a.
Proof. induction a as [|x a IH]; simpl; [reflexivity | now rewrite IH]. Qed.

Lemma length_append (a b : string) :
  String.length (a +:+ b) = (String.length a + String.length b)%nat.
Proof. induction a as [|x a IH]; simpl; [reflexivity | now rewrite IH]. Qed.

Lemma plain_append (a b : string) : plain (a +:+ b) = plain a && plain b.
Proof.
  induction a as [|x a IH]; simpl; [reflexivity|].
  now rewrite IH, andb_assoc.
Qed.

Lemma plain_substring (s : string) : forall n m, plain s = true -> plain (substring n m s) = true.
Proof.
  induction s as [|x s IH]; intros n m Hs.
  - now destruct n, m.
  - simpl in Hs. apply andb_true_iff in Hs as [Hx Hs].
    destruct n as [|n]; simpl.
    + destruct m as [|m]; simpl; [reflexivity|].
      now rewrite Hx, IH.
    + now apply IH.
Qed.

Lemma plainByte_lt128 (c : ascii) : plainByte c = true -> (byteZ c <? 128) = true.
Proof.
  unfold plainByte, json.htmlSafeSet. intros H.
  apply andb_true_iff in H as [H _]. apply andb_true_iff in H as [_ H]. exact H.
Qed.

(** A plain text comes out of the escaping loop unchanged. *)
Lemma appendStringLoop_plain (s : string) :
  plain s = true -> json.appendStringLoop s 0 true = s.
Proof.
  induction s as [|c s IH]; simpl; [reflexivity|].
  intros H. apply andb_true_iff in H as [Hc Hs].
  rewrite (plainByte_lt128 c Hc). unfold plainByte in Hc. rewrite Hc.
  now rewrite IH.
Qed.

Lemma appendString_plain (s : string) :
  plain s = true -> json.appendString s = quoted s.
Proof.
  intros H. unfold json.appendString, quoted.
  now rewrite appendStringLoop_plain.
Qed.

(** *** The digits and names that [Format] writes are plain *)

Lemma digit_cases (d : Z) :
  0 <= d < 10 ->
  d = 0 \/ d = 1 \/ d = 2 \/ d = 3 \/ d = 4 \/ d = 5 \/ d = 6 \/ d = 7 \/ d = 8 \/ d = 9.
Proof. lia. Qed.

Lemma plain_digit (d : Z) : 0 <= d < 10 -> plainByte (time.digit d) = true.
Proof.
  intros H. destruct (digit_cases d H) as [->|[->|[->|[->|[->|[->|[->|[->|[->| ->]]]]]]]]];
    reflexivity.
Qed.

Lemma plain_utoa (fuel : nat) : forall u acc,
  plain acc = true -> plain (time.utoa fuel u acc) = true.
Proof.
  induction fuel as [|fuel IH]; intros u acc Hacc; simpl; [exact Hacc|].
  assert (Hd : plainByte (time.digit (u mod 10)) = true).
  { apply plain_digit. apply Z.mod_pos_bound. lia. }
  destruct (u / 10 =? 0).
  - simpl. now rewrite Hd.
  - apply IH. simpl. now rewrite Hd.
Qed.

Lemma plain_itoa (u : Z) : plain (time.itoa u) = true.
Proof. unfold time.itoa. now apply plain_utoa. Qed.

Lemma plain_zeros (n : nat) : plain (time.zeros n) = true.
Proof. induction n as [|n IH]; simpl; [reflexivity | exact IH]. Qed.

Create HintDb plain.
Create Rewrite HintDb plain.
#[global] Hint Rewrite plain_append : plain.
#[global] Hint Resolve plain_itoa plain_zeros plain_substring : plain.

Lemma plain_appendInt (x : Z) (width : nat) : plain (time.appendInt x width) = true.
Proof.
  unfold time.appendInt. autorewrite with plain.
  rewrite plain_zeros, plain_itoa. now destruct (x <? 0).
Qed.

Lemma plain_Month_String (m : Z) : plain (time.Month_String m) = true.
Proof.
  unfold time.Month_String. destruct ((1 <=? m) && (m <=? 12)).
  - generalize (Z.to_nat (m - 1)). intros n.
    do 13 (destruct n as [|n]; [reflexivity|]). reflexivity.
  - autorewrite with plain. rewrite plain_itoa. reflexivity.
Qed.

#[global] Hint Resolve plain_appendInt plain_Month_String : plain.

Lemma plain_appendChunk (t : time.Time) (c : time.chunk) :
  In c time.RFC822Z -> plain (time.appendChunk t c) = true.
Proof.
  intros Hin. unfold time.appendChunk.
  destruct (time.absDate (time.abs t)) as [[[year month] day] yday].
  destruct (time.absClock (time.abs t)) as [[hour min] sec].
  destruct c; auto with plain.
  - simpl in Hin.
    repeat (destruct Hin as [Hin|Hin]; [try discriminate Hin; injection Hin as <-; reflexivity|]).
    contradiction.
  - autorewrite with plain. rewrite !plain_appendInt.
    now destruct (Z.quot (time.offset t) 60 <? 0).
Qed.

Lemma plain_fold (t : time.Time) (layout : list time.chunk) : forall b,
  (forall c, In c layout -> plain (time.appendChunk t c) = true) ->
  plain b = true ->
  plain (fold_left (fun b c => b +:+ time.appendChunk t c) layout b) = true.
Proof.
  induction layout as [|c layout IH]; intros b Hl Hb; simpl; [exact Hb|].
  apply IH.
  - intros c' Hc'. apply Hl. now right.
  - rewrite plain_append, Hb. apply Hl. now left.
Qed.

(** No byte of a formatted time needs escaping in JSON. *)
Lemma plain_Format (t : time.Time) : plain (time.Format t time.RFC822Z) = true.
Proof.
  unfold time.Format. apply plain_fold; [|reflexivity].
  intros c Hc. now apply plain_appendChunk.
Qed.

(** ** What a client reads back *)

Lemma plainByte_spec (c : ascii) :
  plainByte c = true ->
  Ascii.eqb c json.quote = false /\ Ascii.eqb c "\" = false /\ (byteZ c <? 32) = false.
Proof.
  unfold plainByte, json.htmlSafeSet. intros H.
  apply andb_true_iff in H as [H1 H2]. apply andb_true_iff in H1 as [H1 _].
  apply negb_true_iff in H2.
  repeat (apply orb_false_iff in H2 as [H2 ?]).
  repeat split.
  - apply Ascii.eqb_neq. intros ->. discriminate.
  - apply Ascii.eqb_neq. intros ->. discriminate.
  - lia.
Qed.

(** Inside a string the reader takes plain text as it stands. *)
Lemma scan_value_text (p : string) : forall k v rest acc,
  plain p = true ->
  json.scan (p +:+ rest) (json.InValue k v false) acc =
  json.scan rest (json.InValue k (v +:+ p) false) acc.
Proof.
  induction p as [|c p IH]; intros k v rest acc Hp.
  - simpl. now rewrite append_empty_r.
  - simpl in Hp. apply andb_true_iff in Hp as [Hc Hp].
    destruct (plainByte_spec c Hc) as (Hq & Hb & Hl).
    simpl. rewrite Hq, Hb, Hl. rewrite IH by exact Hp.
    unfold json.snoc. now rewrite append_assoc.
Qed.

Lemma readObject_successBody (t : string) :
  plain t = true ->
  json.readObject (successBody t) =
  Some [("FormattedTime", t); ("Greeting", "Hi there")].
Proof.
  intros Ht. unfold json.readObject, successBody, quoted. simpl.
  rewrite append_assoc, scan_value_text by exact Ht.
  reflexivity.
Qed.

(** ** Serialising a [ServiceResult] *)

Lemma encode_struct2 (n1 v1 n2 v2 : string) :
  json.isExported n1 = true -> json.isExported n2 = true ->
  json.encode (json.VStruct [(n1, json.VString v1); (n2, json.VString v2)]) =
  Ok ("{" +:+ json.appendString n1 +:+ ":" +:+ json.appendString v1 +:+ "," +:+
      json.appendString n2 +:+ ":" +:+ json.appendString v2 +:+ "}").
Proof.
  intros H1 H2. cbn [json.encode]. rewrite H1, H2.
  rewrite !append_assoc. cbn [String.append]. reflexivity.
Qed.

Lemma Marshal_ServiceResult (sr : ServiceResult) :
  json.Marshal sr =
  Ok ("{" +:+ json.appendString "FormattedTime" +:+ ":" +:+
      json.appendString (FormattedTime sr) +:+ "," +:+
      json.appendString "Greeting" +:+ ":" +:+
      json.appendString (Greeting sr) +:+ "}").
Proof.
  unfold json.Marshal, json.reflect, Reflect_ServiceResult.
  apply encode_struct2; reflexivity.
Qed.

Lemma Marshal_plain (t : string) :
  plain t = true ->
  json.Marshal (mkServiceResult t "Hi there") = Ok (successBody t).
Proof.
  intros Ht. rewrite Marshal_ServiceResult. cbn [FormattedTime Greeting].
  rewrite (appendString_plain t Ht).
  rewrite (appendString_plain "FormattedTime") by reflexivity.
  rewrite (appendString_plain "Greeting") by reflexivity.
  rewrite (appendString_plain "Hi there") by reflexivity.
  reflexivity.
Qed.

(** ** The handler, run *)

Lemma respond_Ok (h : http.Header) (js : string) :
  respond (http.mkResponse h false []) (Ok js) =
  http.mkResponse (jsonHeader h) true
    [http.SentHeader http.StatusOK (jsonHeader h); http.SentData js].
Proof. reflexivity. Qed.

Lemma respond_Err (h : http.Header) (err : json.error) :
  respond (http.mkResponse h false []) (Err err) =
  http.mkResponse (errorHeader h) true
    [http.SentHeader http.StatusInternalServerError (errorHeader h);
     http.SentData (json.Error err +:+ LF)].
Proof. reflexivity. Qed.

Lemma handler_run (h : http.Header) (r : http.Request) (c : time.Clock) :
  handler (http.mkResponse h false []) r c =
  (http.mkResponse (jsonHeader h) true
     [http.SentHeader http.StatusOK (jsonHeader h);
      http.SentData (successBody (time.Format (time.reading c (time.calls c)) time.RFC822Z))],
   time.mkClock (time.reading c) (S (time.calls c))).
Proof.
  unfold handler, currentTime, time.Now.
  rewrite Marshal_plain by apply plain_Format.
  rewrite respond_Ok. reflexivity.
Qed.

Lemma jsonHeader_ContentType (h : http.Header) :
  jsonHeader h !! "Content-Type" = Some ["application/json"].
Proof. unfold jsonHeader. apply lookup_insert_eq. Qed.


(** ** The success path *)

(** C1: on every request the handler answers with status 200, the header
    Content-Type: application/json, and as body the JSON serialisation of
    the [ServiceResult] whose [FormattedTime] is the formatter's text for
    the reading that this call of [time.Now] returns; the body is an
    object with the two keys FormattedTime and Greeting, and the clock
    has been read exactly once. *)
Theorem handler_writes_json (h : http.Header) (r : http.Request) (c : time.Clock) :
  let t := time.Format (time.reading c (time.calls c)) time.RFC822Z in
  http.status (served h r c) = Some http.StatusOK /\
  (exists hdr, http.headers (served h r c) = Some hdr /\
               hdr !! "Content-Type" = Some ["application/json"]) /\
  json.Marshal (mkServiceResult t "Hi there") = Ok (http.body (served h r c)) /\
  http.body (served h r c) = successBody t /\
  option_map (map fst) (json.readObject (http.body (served h r c))) =
    Some ["FormattedTime"; "Greeting"] /\
  fst (currentTime c) = t /\
  time.calls (snd (handler (http.mkResponse h false []) r c)) = S (time.calls c).
Proof.
  intros t. unfold served. rewrite handler_run. cbn [fst snd http.wire].
  fold t. cbn [http.status http.headers http.body time.calls].
  rewrite append_empty_r.
  split; [reflexivity|].
  split; [exists (jsonHeader h); split; [reflexivity | apply jsonHeader_ContentType]|].
  split; [apply Marshal_plain, plain_Format|].
  split; [reflexivity|].
  split; [|split; reflexivity].
  unfold t. rewrite readObject_successBody by apply plain_Format. reflexivity.
Qed.

(** Two requests served one after the other each take a reading of their
    own: nothing of the first response is kept for the second. *)
Lemma handler_twice (h1 h2 : http.Header) (r1 r2 : http.Request) (c : time.Clock) :
  let c1 := snd (handler (http.mkResponse h1 false []) r1 c) in
  http.body (served h1 r1 c) =
    successBody (time.Format (time.reading c (time.calls c)) time.RFC822Z) /\
  http.body (served h2 r2 c1) =
    successBody (time.Format (time.reading c (S (time.calls c))) time.RFC822Z).
Proof.
  cbv zeta. unfold served. rewrite (handler_run h1 r1 c).
  cbn [fst snd]. rewrite handler_run.
  cbn [fst http.wire http.body time.reading time.calls].
  rewrite !append_empty_r. split; reflexivity.
Qed.

(** C2: a request handled at 2016-09-23T11:39:00+01:00 is answered with
    status 200 and exactly the body
    [{"FormattedTime":"23 Sep 16 11:39 +0100","Greeting":"Hi there"}]. *)
Theorem handler_at_2016_09_23 (h : http.Header) (r : http.Request) (c : time.Clock) :
  time.reading c (time.calls c) = t_2016_09_23_1139 ->
  http.status (served h r c) = Some 200 /\
  http.body (served h r c) =
    "{" +:+ quoted "FormattedTime" +:+ ":" +:+ quoted "23 Sep 16 11:39 +0100" +:+ "," +:+
    quoted "Greeting" +:+ ":" +:+ quoted "Hi there" +:+ "}".
Proof.
  intros Hnow. unfold served. rewrite handler_run, Hnow.
  cbn [fst http.wire http.status http.body]. rewrite append_empty_r.
  split; [reflexivity|].
  assert (Hf : time.Format t_2016_09_23_1139 time.RFC822Z = "23 Sep 16 11:39 +0100")
    by (vm_compute; reflexivity).
  rewrite Hf. reflexivity.
Qed.

Lemma handler_at_2016_09_23_witness :
  let c := time.mkClock (fun _ => t_2016_09_23_1139) 0 in
  let r := http.mkRequest "GET" "/" ∅ "" in
  http.status (served ∅ r c) = Some 200 /\
  http.body (served ∅ r c) =
    "{" +:+ quoted "FormattedTime" +:+ ":" +:+ quoted "23 Sep 16 11:39 +0100" +:+ "," +:+
    quoted "Greeting" +:+ ":" +:+ quoted "Hi there" +:+ "}".
Proof.
  exact (handler_at_2016_09_23 ∅ (http.mkRequest "GET" "/" ∅ "")
           (time.mkClock (fun _ => t_2016_09_23_1139) 0) eq_refl).
Defined.

(** C3: in every response the body read as JSON has a member Greeting
    whose value is the text "Hi there". *)
Theorem greeting_is_hi_there (h : http.Header) (r : http.Request) (c : time.Clock) :
  exists obj,
    json.readObject (http.body (served h r c)) = Some obj /\
    json.member "Greeting" obj = Some "Hi there".
Proof.
  unfold served. rewrite handler_run. cbn [fst http.wire http.body].
  rewrite append_empty_r, readObject_successBody by apply plain_Format.
  eexists. split; reflexivity.
Qed.

(** ** The error path *)




(** C6: serialising a [ServiceResult] never fails, whatever its two
    strings are, so the handler always takes the branch that writes the
    JSON text and never the one that calls [http.Error]. *)
Theorem marshal_never_fails :
  (forall sr : ServiceResult, exists js, json.Marshal sr = Ok js) /\
  (forall w r c, exists js,
      fst (handler w r c) =
      http.Write js (http.Header_Set "Content-Type" "application/json" w)) /\
  (forall h r c, http.status (served h r c) <> Some http.StatusInternalServerError).
Proof.
  split; [|split].
  - intros sr. rewrite Marshal_ServiceResult. eexists. reflexivity.
  - intros w r c. unfold handler, currentTime, time.Now.
    rewrite Marshal_ServiceResult. cbn [fst respond]. eexists. reflexivity.
  - intros h r c. unfold served. rewrite handler_run. discriminate.
Qed.

(** C8: the response does not depend on the request.  Whatever the
    method, URI, headers and body of two requests, the handler does the
    same with either; and two requests handled at the same instant, each
    in a call of its own that reads the clock for itself, are sent the
    same response. *)
Theorem handler_ignores_request (r1 r2 : http.Request) :
  (forall w c, handler w r1 c = handler w r2 c) /\
  (forall h c1 c2,
     time.reading c1 (time.calls c1) = time.reading c2 (time.calls c2) ->
     served h r1 c1 = served h r2 c2).
Proof.
  split; [reflexivity|].
  intros h c1 c2 Hnow. unfold served. rewrite !handler_run. cbn [fst http.wire].
  now rewrite Hnow.
Qed.


(** C10: what the handler sends is what lines 23-28 send for the outcome
    of the serialisation, and for either outcome that is one status line
    and one piece of body data: the 500 with the error text, or the 200
    with the JSON text, never both. *)
Theorem exactly_one_response (h : http.Header) (res : result json.error string) :
  (forall r c,
     served h r c =
     responded h (json.Marshal (mkServiceResult (fst (currentTime c)) "Hi there"))) /\
  http.statusLines (responded h res) = 1%nat /\
  http.dataWrites (responded h res) = 1%nat /\
  match res with
  | Err err =>
      responded h res =
      [http.SentHeader http.StatusInternalServerError (errorHeader h);
       http.SentData (json.Error err +:+ LF)]
  | Ok js =>
      responded h res = [http.SentHeader http.StatusOK (jsonHeader h); http.SentData js]
  end.
Proof.
  split.
  - intros r c. unfold served, responded, handler.
    destruct (currentTime c) as [t c']. reflexivity.
  - unfold responded. destruct res as [js|err].
    + rewrite respond_Ok. repeat split; reflexivity.
    + rewrite respond_Err. repeat split; reflexivity.
Qed.

(** For the handler itself, which never sees the error outcome. *)
Lemma handler_sends_once (h : http.Header) (r : http.Request) (c : time.Clock) :
  http.statusLines (served h r c) = 1%nat /\ http.dataWrites (served h r c) = 1%nat.
Proof. unfold served. rewrite handler_run. split; reflexivity. Qed.

(** ** Calendar arithmetic *)

Ltac dlia := Z.to_euclidean_division_equations; lia.

Lemma absDate_eq (a : Z) :
  time.absDate a =
  let '(year, yday) := yearDay (a / time.secondsPerDay) in
  let '(month, day) := monthDay (time.isLeap year) yday in
  (year, month, day, yday).
Proof.
  unfold time.absDate, yearDay, monthDay.
  change time.daysPer400Years with 146097.
  change time.daysPer100Years with 36524.
  change time.daysPer4Years with 1461.
  change (31 + 29 - 1) with 59.
  cbv zeta.
  repeat match goal with
         | |- context [if ?b then _ else _] => destruct b
         end; reflexivity.
Qed.

Lemma shiftr2 (n : Z) : Z.shiftr n 2 = n / 4.
Proof. now rewrite Z.shiftr_div_pow2 by lia. Qed.

(** The cycles of [yearDay]: how many whole 400-year, 100-year, 4-year
    cycles and years lie before day [d], and the day of the year left. *)
Lemma yearDay_cycles (d : Z) :
  0 <= d ->
  exists n1 n2 n3 n4 yday,
    yearDay d = (400 * n1 + 100 * n2 + 4 * n3 + n4 + time.absoluteZeroYear, yday) /\
    0 <= n1 /\ 0 <= n2 <= 3 /\ 0 <= n3 <= 24 /\ 0 <= n4 <= 3 /\
    0 <= yday <= 365 /\
    (yday = 365 -> n4 = 3 /\ (n3 <> 24 \/ n2 = 3)) /\
    d = 146097 * n1 + 36524 * n2 + 1461 * n3 + 365 * n4 + yday.
Proof.
  intros Hd. unfold yearDay. rewrite !shiftr2.
  set (n1 := d / 146097). set (d1 := d - 146097 * n1).
  set (n2r := d1 / 36524). set (n2 := n2r - n2r / 4).
  set (d2 := d1 - 36524 * n2). set (n3 := d2 / 1461).
  set (d3 := d2 - 1461 * n3). set (n4r := d3 / 365).
  set (n4 := n4r - n4r / 4).
  exists n1, n2, n3, n4, (d3 - 365 * n4).
  assert (H1 : 0 <= n1 /\ 0 <= d1 < 146097) by (subst d1 n1; dlia).
  clearbody n1. 
  assert (H2r : 0 <= n2r <= 4 /\ 36524 * n2r <= d1 < 36524 * n2r + 36524) by (subst n2r; dlia).
  clearbody n2r.
  assert (H2 : 0 <= n2 <= 3 /\ (n2r <= 3 -> n2 = n2r) /\ (n2r = 4 -> n2 = 3)) by (subst n2; dlia).
  clearbody n2.
  assert (Hd2 : 0 <= d2 <= 36524 /\ (d2 = 36524 -> n2 = 3)) by (subst d2; lia).
  assert (H3 : 0 <= n3 <= 24 /\ 1461 * n3 <= d2 < 1461 * n3 + 1461) by (subst n3; dlia).
  clearbody n3.
  assert (Hd3 : 0 <= d3 <= 1460 /\ (n3 = 24 -> n2 <> 3 -> d3 <= 1459)) by (subst d3; lia).
  assert (H4r : 0 <= n4r <= 4 /\ 365 * n4r <= d3 < 365 * n4r + 365) by (subst n4r; dlia).
  clearbody n4r.
  assert (H4 : 0 <= n4 <= 3 /\ (n4r <= 3 -> n4 = n4r) /\ (n4r = 4 -> n4 = 3)) by (subst n4; dlia).
  clearbody n4.
  split; [reflexivity|].
  subst d3 d2 d1. lia.
Qed.

Lemma isLeap_cycles (n1 n2 n3 n4 : Z) :
  0 <= n2 <= 3 -> 0 <= n3 <= 24 -> 0 <= n4 <= 3 ->
  time.isLeap (400 * n1 + 100 * n2 + 4 * n3 + n4 + time.absoluteZeroYear) =
  (n4 =? 3) && (negb (n3 =? 24) || (n2 =? 3)).
Proof.
  intros H2 H3 H4. unfold time.isLeap, time.absoluteZeroYear.
  set (year := 400 * n1 + 100 * n2 + 4 * n3 + n4 + -292277022399).
  assert (E4 : (Z.rem year 4 =? 0) = (n4 =? 3)).
  { subst year. destruct (Z.eqb_spec n4 3); destruct (Z.eqb_spec (Z.rem (400 * n1 + 100 * n2 + 4 * n3 + n4 + -292277022399) 4) 0);
      try reflexivity; exfalso; dlia. }
  rewrite E4. destruct (Z.eqb_spec n4 3) as [->|]; [|reflexivity]. cbn [andb].
  assert (E100 : (Z.rem year 100 =? 0) = (n3 =? 24)).
  { subst year. destruct (Z.eqb_spec n3 24); destruct (Z.eqb_spec (Z.rem (400 * n1 + 100 * n2 + 4 * n3 + 3 + -292277022399) 100) 0);
      try reflexivity; exfalso; dlia. }
  rewrite E100. destruct (Z.eqb_spec n3 24) as [->|]; [|reflexivity]. cbn [negb orb].
  subst year. destruct (Z.eqb_spec n2 3); destruct (Z.eqb_spec (Z.rem (400 * n1 + 100 * n2 + 4 * 24 + 3 + -292277022399) 400) 0);
      try reflexivity; exfalso; dlia.
Qed.

Lemma daysSinceEpoch_cycles (n1 n2 n3 n4 : Z) :
  0 <= n1 < 2 ^ 50 -> 0 <= n2 <= 3 -> 0 <= n3 <= 24 -> 0 <= n4 <= 3 ->
  time.daysSinceEpoch (400 * n1 + 100 * n2 + 4 * n3 + n4 + time.absoluteZeroYear) =
  146097 * n1 + 36524 * n2 + 1461 * n3 + 365 * n4.
Proof.
  intros H1 H2 H3 H4. unfold time.daysSinceEpoch, time.uint64.
  change time.daysPer400Years with 146097.
  change time.daysPer100Years with 36524.
  change time.daysPer4Years with 1461.
  replace (400 * n1 + 100 * n2 + 4 * n3 + n4 + time.absoluteZeroYear - time.absoluteZeroYear)
    with (400 * n1 + 100 * n2 + 4 * n3 + n4) by lia.
  change (2 ^ 50) with 1125899906842624 in H1.
  rewrite Z.mod_small by lia.
  set (y := 400 * n1 + 100 * n2 + 4 * n3 + n4).
  assert (E1 : y / 400 = n1) by (subst y; dlia).
  rewrite E1. cbv zeta.
  set (y1 := y - 400 * n1).
  assert (E2 : y1 / 100 = n2) by (subst y1 y; dlia).
  rewrite E2.
  set (y2 := y1 - 100 * n2).
  assert (E3 : y2 / 4 = n3) by (subst y2 y1 y; dlia).
  rewrite E3. subst y2 y1 y. lia.
Qed.

Lemma forallb_below (p : Z -> bool) (N : nat) :
  forallb (fun k => p (Z.of_nat k)) (seq 0 N) = true ->
  forall n, 0 <= n < Z.of_nat N -> p n = true.
Proof.
  intros H n Hn. rewrite forallb_forall in H.
  specialize (H (Z.to_nat n)). rewrite Z2Nat.id in H by lia.
  apply H. apply in_seq. lia.
Qed.

Lemma monthDay_ok_all (leap : bool) (yday : Z) :
  0 <= yday < 365 + (if leap then 1 else 0) -> monthDay_ok leap yday = true.
Proof.
  intros H. destruct leap.
  - apply (forallb_below (monthDay_ok true) 366); [vm_compute; reflexivity | lia].
  - apply (forallb_below (monthDay_ok false) 365); [vm_compute; reflexivity | lia].
Qed.

Lemma monthDay_spec (leap : bool) (yday : Z) :
  0 <= yday < 365 + (if leap then 1 else 0) ->
  exists m dd,
    monthDay leap yday = (m, dd) /\ 1 <= m <= 12 /\ 1 <= dd /\
    dd <= (if (m =? 2) && leap then 29
           else time.daysBeforeAt m - time.daysBeforeAt (m - 1)) /\
    time.daysBeforeAt (m - 1) + (if leap && (3 <=? m) then 1 else 0) + (dd - 1) = yday.
Proof.
  intros H. pose proof (monthDay_ok_all leap yday H) as Hok.
  unfold monthDay_ok in Hok. destruct (monthDay leap yday) as [m dd].
  exists m, dd. split; [reflexivity|].
  repeat (apply andb_true_iff in Hok as [Hok ?]).
  repeat split; lia.
Qed.

(** What [absDate] returns for an absolute time: a month and a day that
    exist, and the date whose day count, as [Date] computes it, is that
    of the absolute time. *)
Lemma absDate_spec (a : Z) :
  0 <= a < 2 ^ 64 ->
  exists year month day yday,
    time.absDate a = (year, month, day, yday) /\
    1 <= month <= 12 /\ 1 <= day <= time.daysIn month year /\
    0 <= year - time.absoluteZeroYear < 2 ^ 60 /\
    time.daysSinceEpoch year + time.daysBeforeAt (month - 1) +
      (if time.isLeap year && (3 <=? month) then 1 else 0) + (day - 1) =
    a / time.secondsPerDay.
Proof.
  intros Ha. rewrite absDate_eq.
  assert (Hd : 0 <= a / time.secondsPerDay < 2 ^ 48).
  { change time.secondsPerDay with 86400. change (2 ^ 48) with 281474976710656.
    change (2 ^ 64) with 18446744073709551616 in Ha. dlia. }
  destruct (yearDay_cycles _ (proj1 Hd)) as (n1 & n2 & n3 & n4 & yday & E & H1 & H2 & H3 & H4 & Hy & Hy365 & Hsum).
  rewrite E.
  pose proof (isLeap_cycles n1 n2 n3 n4 H2 H3 H4) as Hleap.
  set (year := 400 * n1 + 100 * n2 + 4 * n3 + n4 + time.absoluteZeroYear) in *.
  assert (Hyd : 0 <= yday < 365 + (if time.isLeap year then 1 else 0)).
  { rewrite Hleap. destruct (Z.eqb_spec n4 3), (Z.eqb_spec n3 24), (Z.eqb_spec n2 3);
      cbn [andb orb negb]; lia. }
  destruct (monthDay_spec _ _ Hyd) as (m & dd & Em & Hm & Hdd1 & Hdd2 & Hdays).
  rewrite Em. exists year, m, dd, yday.
  split; [reflexivity|]. split; [exact Hm|].
  split; [unfold time.daysIn; split; [exact Hdd1 | exact Hdd2]|].
  change (2 ^ 48) with 281474976710656 in Hd.
  split.
  - subst year. change (2 ^ 60) with 1152921504606846976. lia.
  - subst year. rewrite daysSinceEpoch_cycles; try assumption.
    + rewrite Hsum. lia.
    + change (2 ^ 50) with 1125899906842624. lia.
Qed.

(** What [absClock] returns: an hour and a minute of the day, which with
    the day count give the absolute time cut to the minute. *)
Lemma absClock_spec (a : Z) :
  0 <= a ->
  exists hour min sec,
    time.absClock a = (hour, min, sec) /\
    0 <= hour < 24 /\ 0 <= min < 60 /\ sec = a mod 60 /\
    a / time.secondsPerDay * time.secondsPerDay
      + (hour * time.secondsPerHour + min * time.secondsPerMinute) = a - a mod 60.
Proof.
  intros Ha. unfold time.absClock.
  change time.secondsPerDay with 86400. change time.secondsPerHour with 3600.
  change time.secondsPerMinute with 60. cbv zeta.
  set (s := a mod 86400). set (hour := s / 3600).
  set (min := (s - hour * 3600) / 60).
  exists hour, min, (s - hour * 3600 - min * 60).
  split; [reflexivity|].
  assert (Hs : 0 <= s < 86400 /\ a = 86400 * (a / 86400) + s) by (subst s; dlia).
  assert (Hh : 0 <= hour < 24 /\ 3600 * hour <= s < 3600 * hour + 3600) by (subst hour; clearbody s; dlia).
  assert (Hm : 0 <= min < 60 /\ 60 * min <= s - hour * 3600 < 60 * min + 60)
    by (subst min; clearbody hour s; dlia).
  clearbody min hour s.
  assert (Hmod : a mod 60 = s - hour * 3600 - min * 60) by dlia.
  rewrite Hmod. lia.
Qed.

(** ** [Date] on fields that are in range *)

Lemma norm_id (hi lo base : Z) : 0 <= lo < base -> time.norm hi lo base = (hi, lo).
Proof.
  intros H. unfold time.norm.
  destruct (Z.ltb_spec lo 0); [lia|].
  destruct (Z.leb_spec base lo); [lia | reflexivity].
Qed.

Lemma int64_add_l (x c : Z) : time.int64 (time.int64 x + c) = time.int64 (x + c).
Proof. unfold time.int64. dlia. Qed.

Lemma int64_small (x : Z) :
  - 9223372036854775808 <= x < 9223372036854775808 -> time.int64 x = x.
Proof. intros H. unfold time.int64. dlia. Qed.

Lemma uint64_small (x : Z) : 0 <= x < 2 ^ 64 -> time.uint64 x = x.
Proof. intros H. unfold time.uint64. apply Z.mod_small. exact H. Qed.

Lemma Date_unix (year month day hour min : Z) :
  1 <= month <= 12 -> 0 <= hour < 24 -> 0 <= min < 60 ->
  let days := time.daysSinceEpoch year + time.daysBeforeAt (month - 1) +
              (if time.isLeap year && (3 <=? month) then 1 else 0) + (day - 1) in
  0 <= days * time.secondsPerDay ->
  days * time.secondsPerDay + 86400 < 2 ^ 64 ->
  time.Date year month day hour min 0 0 =
  time.mkTime
    (time.int64 (days * time.secondsPerDay
                 + (hour * time.secondsPerHour + min * time.secondsPerMinute)
                 - unixToAbsolute)) 0 0.
Proof.
  intros Hm Hh Hmi days Hlo Hhi. unfold time.Date.
  rewrite (norm_id year (month - 1) 12) by lia.
  rewrite (norm_id 0 0 1000000000) by lia.
  rewrite (norm_id min 0 60) by lia.
  rewrite (norm_id hour min 60) by lia.
  rewrite (norm_id day hour 24) by lia.
  replace (month - 1 + 1) with month by lia.
  assert (Hdays :
    (if time.isLeap year && (3 <=? month)
     then time.daysSinceEpoch year + time.daysBeforeAt (month - 1) + 1
     else time.daysSinceEpoch year + time.daysBeforeAt (month - 1)) + (day - 1) = days).
  { subst days. destruct (time.isLeap year && (3 <=? month)); lia. }
  cbv zeta. rewrite Hdays. clearbody days.
  change time.secondsPerDay with 86400 in *. change time.secondsPerHour with 3600.
  change time.secondsPerMinute with 60.
  rewrite (uint64_small (days * 86400)) by lia.
  rewrite uint64_small by lia.
  rewrite int64_add_l.
  assert (E : time.absoluteToInternal + time.internalToUnix = - unixToAbsolute)
    by (vm_compute; reflexivity).
  rewrite E. f_equal. f_equal. lia.
Qed.

(** ** The loops that the model bounds by a counter

    [utoa] and [skip] carry a counter where Go has a loop; the counter
    they are started with is never used up: more of it changes nothing. *)

Lemma utoa_fuel (n : nat) : forall (m : nat) (u : Z) (acc : string),
  0 <= u < 2 ^ Z.of_nat (S n) ->
  time.utoa (S n + m) u acc = time.utoa (S n) u acc.
Proof.
  induction n as [|n IH]; intros m u acc Hu.
  - change (2 ^ Z.of_nat 1) with 2 in Hu. cbn [Nat.add time.utoa].
    destruct (Z.eqb_spec (u / 10) 0) as [|Hne]; [reflexivity | exfalso; dlia].
  - cbn [Nat.add time.utoa].
    destruct (Z.eqb_spec (u / 10) 0) as [|Hne]; [reflexivity|].
    change (S (n + m)) with (S n + m)%nat. apply IH.
    rewrite (Nat2Z.inj_succ (S n)), Z.pow_succ_r in Hu by lia.
    assert (HP : 0 < 2 ^ Z.of_nat (S n)) by (apply Z.pow_pos_nonneg; lia).
    revert Hu HP. generalize (2 ^ Z.of_nat (S n)). intros P Hu HP. dlia.
Qed.

Lemma itoa_fuel (m : nat) (u : Z) :
  0 <= u -> time.utoa (S (Z.to_nat (Z.log2 u)) + m) u "" = time.itoa u.
Proof.
  intros Hu. unfold time.itoa. apply utoa_fuel.
  rewrite Nat2Z.inj_succ, Z2Nat.id by apply Z.log2_nonneg.
  destruct (Z.eq_dec u 0) as [->|Hne]; [vm_compute; split; [discriminate | reflexivity]|].
  pose proof (Z.log2_spec u ltac:(lia)) as H. lia.
Qed.

Lemma length_cutspace (s : string) : (String.length (time.cutspace s) <= String.length s)%nat.
Proof.
  induction s as [|c s IH]; cbn [time.cutspace String.length]; [lia|].
  destruct (Ascii.eqb c " "); cbn [String.length]; lia.
Qed.

Lemma skip_fuel (n : nat) : forall (m : nat) (value prefix : string),
  (String.length prefix < n)%nat ->
  time.skip (n + m) value prefix = time.skip n value prefix.
Proof.
  induction n as [|n IH]; intros m value prefix Hlen; [lia|].
  cbn [Nat.add time.skip].
  destruct prefix as [|p prefix]; [reflexivity|].
  cbn [String.length] in Hlen.
  destruct (Ascii.eqb p " ") eqn:Ep.
  - assert (Hcut : (String.length (time.cutspace (String p prefix)) < n)%nat).
    { cbn [time.cutspace]. rewrite Ep. pose proof (length_cutspace prefix). lia. }
    destruct value as [|v value]; [apply IH; exact Hcut|].
    destruct (negb (Ascii.eqb v " ")); [reflexivity | apply IH; exact Hcut].
  - destruct value as [|v value]; [reflexivity|].
    destruct (Ascii.eqb v p); [apply IH; lia | reflexivity].
Qed.

(** ** Reading back what [Format] wrote *)

Lemma appendInt_two (n : Z) : 0 <= n < 100 -> time.appendInt n 2 = two n.
Proof.
  intros H. apply String.eqb_eq.
  apply (forallb_below (fun n => String.eqb (time.appendInt n 2) (two n)) 100);
    [vm_compute; reflexivity | lia].
Qed.

Lemma digit_spec (d : Z) :
  0 <= d < 10 ->
  time.isDigitByte (time.digit d) = true /\
  byteZ (time.digit d) - byteZ "0" = d /\
  Ascii.eqb (time.digit d) " " = false.
Proof.
  intros H. destruct (digit_cases d H) as [->|[->|[->|[->|[->|[->|[->|[->|[->| ->]]]]]]]]];
    repeat split; reflexivity.
Qed.

Lemma getnum_two (n : Z) (rest : string) (fixed : bool) :
  0 <= n < 100 -> time.getnum (two n +:+ rest) fixed = Ok (n, rest).
Proof.
  intros H. unfold two. cbn [String.append].
  assert (Ha : 0 <= n / 10 < 10) by dlia.
  assert (Hb : 0 <= n mod 10 < 10) by dlia.
  destruct (digit_spec _ Ha) as (Ha1 & Ha2 & _).
  destruct (digit_spec _ Hb) as (Hb1 & Hb2 & _).
  unfold time.getnum, time.isDigit0, time.isDigit1. rewrite Ha1, Hb1. cbn [negb].
  rewrite Ha2, Hb2. f_equal. f_equal. dlia.
Qed.

Lemma atoi_two (n : Z) : 0 <= n < 100 -> time.atoi (two n) = Ok n.
Proof.
  intros H.
  pose (p := fun n => match time.atoi (two n) with Ok m => m =? n | Err _ => false end).
  assert (Hp : p n = true).
  { apply (forallb_below p 100); [vm_compute; reflexivity | lia]. }
  unfold p in Hp. destruct (time.atoi (two n)) as [m|e]; [|discriminate].
  apply Z.eqb_eq in Hp. now subst.
Qed.

Lemma cutspace_noSpaceAhead (s : string) : noSpaceAhead s -> time.cutspace s = s.
Proof. destruct s as [|c s]; simpl; [reflexivity|]. now intros ->. Qed.

Lemma noSpaceAhead_two (n : Z) (rest : string) : 0 <= n < 100 -> noSpaceAhead (two n +:+ rest).
Proof.
  intros H. unfold two. cbn [String.append noSpaceAhead].
  apply digit_spec. dlia.
Qed.

Lemma month_cases (m : Z) :
  1 <= m <= 12 ->
  m = 1 \/ m = 2 \/ m = 3 \/ m = 4 \/ m = 5 \/ m = 6 \/ m = 7 \/ m = 8 \/ m = 9 \/
  m = 10 \/ m = 11 \/ m = 12.
Proof. lia. Qed.

Ltac each_month m H :=
  destruct (month_cases m H) as [->|[->|[->|[->|[->|[->|[->|[->|[->|[->|[->| ->]]]]]]]]]]].

Lemma lookup_month (m : Z) (rest : string) :
  1 <= m <= 12 ->
  time.lookup time.shortMonthNames (substring 0 3 (time.Month_String m) +:+ rest) 0 =
  Ok (m - 1, rest).
Proof. intros H. each_month m H; reflexivity. Qed.

Lemma noSpaceAhead_month (m : Z) (rest : string) :
  1 <= m <= 12 -> noSpaceAhead (substring 0 3 (time.Month_String m) +:+ rest).
Proof. intros H. each_month m H; reflexivity. Qed.

(** *** One step of [parse] for each piece of the layout *)

Lemma parseChunk_space (f : time.fields) (rest : string) :
  noSpaceAhead rest ->
  time.parseChunk (time.Lit " ") f (String " " rest) = Ok (f, rest).
Proof.
  intros H. cbn [time.parseChunk String.length time.skip].
  cbn. rewrite (cutspace_noSpaceAhead rest H). destruct rest; reflexivity.
Qed.

Lemma parseChunk_colon (f : time.fields) (rest : string) :
  time.parseChunk (time.Lit ":") f (String ":" rest) = Ok (f, rest).
Proof. cbn. destruct rest; reflexivity. Qed.

Lemma parseChunk_day (f : time.fields) (n : Z) (rest : string) :
  0 <= n < 100 ->
  time.parseChunk time.stdZeroDay f (two n +:+ rest) =
  Ok (time.mkFields (time.f_year f) (time.f_month f) n (time.f_hour f) (time.f_min f)
        (time.f_zoneOffset f), rest).
Proof. intros H. cbn [time.parseChunk]. now rewrite getnum_two. Qed.

Lemma parseChunk_month (f : time.fields) (m : Z) (rest : string) :
  1 <= m <= 12 ->
  time.parseChunk time.stdMonth f (substring 0 3 (time.Month_String m) +:+ rest) =
  Ok (time.mkFields (time.f_year f) m (time.f_day f) (time.f_hour f) (time.f_min f)
        (time.f_zoneOffset f), rest).
Proof.
  intros H. cbn [time.parseChunk]. rewrite lookup_month by exact H.
  replace (m - 1 + 1) with m by lia. reflexivity.
Qed.

Lemma parseChunk_year (f : time.fields) (yy : Z) (rest : string) :
  0 <= yy < 100 ->
  time.parseChunk time.stdYear f (two yy +:+ rest) =
  Ok (time.mkFields (century yy) (time.f_month f) (time.f_day f) (time.f_hour f)
        (time.f_min f) (time.f_zoneOffset f), rest).
Proof.
  intros H. unfold two. cbn [String.append time.parseChunk].
  fold (two yy). now rewrite atoi_two.
Qed.

Lemma parseChunk_hour (f : time.fields) (n : Z) (rest : string) :
  0 <= n < 24 ->
  time.parseChunk time.stdHour f (two n +:+ rest) =
  Ok (time.mkFields (time.f_year f) (time.f_month f) (time.f_day f) n (time.f_min f)
        (time.f_zoneOffset f), rest).
Proof.
  intros H. cbn [time.parseChunk]. rewrite getnum_two by lia. cbv zeta.
  destruct (Z.ltb_spec n 0); [lia|]. destruct (Z.leb_spec 24 n); [lia|].
  reflexivity.
Qed.

Lemma parseChunk_minute (f : time.fields) (n : Z) (rest : string) :
  0 <= n < 60 ->
  time.parseChunk time.stdZeroMinute f (two n +:+ rest) =
  Ok (time.mkFields (time.f_year f) (time.f_month f) (time.f_day f) (time.f_hour f) n
        (time.f_zoneOffset f), rest).
Proof.
  intros H. cbn [time.parseChunk]. rewrite getnum_two by lia. cbv zeta.
  destruct (Z.ltb_spec n 0); [lia|]. destruct (Z.leb_spec 60 n); [lia|].
  reflexivity.
Qed.

Lemma parseChunk_zone (f : time.fields) (neg : bool) (zh zm : Z) :
  0 <= zh <= 24 -> 0 <= zm < 60 ->
  time.parseChunk time.stdNumTZ f ((if neg then "-" else "+") +:+ two zh +:+ two zm) =
  Ok (time.mkFields (time.f_year f) (time.f_month f) (time.f_day f) (time.f_hour f)
        (time.f_min f)
        (if neg then - ((zh * 60 + zm) * 60) else (zh * 60 + zm) * 60), "").
Proof.
  intros Hh Hm.
  assert (E : (if neg then "-" else "+") +:+ two zh +:+ two zm =
              String (if neg then "-" else "+")%char
                (String (time.digit (zh / 10)) (String (time.digit (zh mod 10))
                   (String (time.digit (zm / 10)) (String (time.digit (zm mod 10)) ""))))).
  { destruct neg; reflexivity. }
  rewrite E. cbn [time.parseChunk].
  fold (two zh). fold (two zm).
  rewrite <- (append_empty_r (two zh)), <- (append_empty_r (two zm)).
  rewrite !getnum_two by lia. cbv zeta.
  destruct (Z.ltb_spec 24 zh); [lia|]. destruct (Z.ltb_spec 60 zm); [lia|].
  destruct neg; reflexivity.
Qed.

(** *** Facts about the fields that [Format] writes *)

Lemma Date_nsec (year month day hour min : Z) :
  time.nsec (time.Date year month day hour min 0 0) = 0.
Proof.
  unfold time.Date.
  destruct (time.norm year (month - 1) 12) as [y m].
  rewrite (norm_id 0 0 1000000000) by lia.
  rewrite (norm_id min 0 60) by lia.
  destruct (time.norm hour min 60) as [h mi].
  destruct (time.norm day h 24) as [d h']. reflexivity.
Qed.

(** A leap year stays one when it is read back from its two digits, so
    a 29 February parses. *)
Lemma isLeap_century (year : Z) :
  time.isLeap year = true -> time.isLeap (century (yearDigits year)) = true.
Proof.
  unfold time.isLeap, yearDigits. intros H.
  apply andb_true_iff in H as [H4 H100].
  apply Z.eqb_eq in H4.
  set (a := if year <? 0 then - year else year).
  assert (Ha : a = year \/ a = - year) by (subst a; destruct (year <? 0); lia).
  clearbody a.
  set (yy := Z.rem a 100).
  assert (Hyy : yy = Z.rem a 100) by reflexivity. clearbody yy.
  assert (Hc : century yy = yy + 1900 \/ century yy = yy + 2000)
    by (unfold century; destruct (69 <=? yy); lia).
  apply andb_true_iff. split.
  - apply Z.eqb_eq. generalize dependent (century yy). intros c Hc. dlia.
  - apply orb_true_iff in H100 as [H100|H400].
    + apply negb_true_iff, Z.eqb_neq in H100.
      apply orb_true_iff. left. apply negb_true_iff, Z.eqb_neq.
      generalize dependent (century yy). intros c Hc. dlia.
    + apply Z.eqb_eq in H400.
      assert (E : yy = 0) by dlia.
      rewrite E. reflexivity.
Qed.

Lemma daysIn_century (month year : Z) :
  1 <= month <= 12 ->
  time.daysIn month year <= time.daysIn month (century (yearDigits year)).
Proof.
  intros Hm. unfold time.daysIn.
  pose proof (isLeap_century year) as Hl.
  destruct (time.isLeap year).
  - rewrite Hl by reflexivity. lia.
  - destruct (time.isLeap (century (yearDigits year))); [|lia].
    destruct (Z.eqb_spec month 2) as [->|]; cbn [andb]; [vm_compute; discriminate | lia].
Qed.

Lemma daysIn_le_31 (month year : Z) : 1 <= month <= 12 -> time.daysIn month year <= 31.
Proof.
  intros H. unfold time.daysIn.
  destruct (time.isLeap year); each_month month H; vm_compute; intros E; discriminate E.
Qed.

Lemma month_abbreviation (m : Z) :
  1 <= m <= 12 ->
  substring 0 3 (time.Month_String m) = nth (Z.to_nat (m - 1)) time.shortMonthNames "".
Proof. intros H. each_month m H; reflexivity. Qed.

Lemma century_yearDigits (year : Z) :
  1969 <= year <= 2068 -> century (yearDigits year) = year.
Proof.
  intros H. unfold century, yearDigits.
  destruct (Z.ltb_spec year 0); [lia|].
  destruct (Z.leb_spec 69 (Z.rem year 100)); dlia.
Qed.

(** Day counts of the years that two digits can name. *)
Lemma daysSinceEpoch_1969_2068 (year : Z) :
  1969 <= year <= 2068 ->
  unixToAbsolute / 86400 - 365 <= time.daysSinceEpoch year <= unixToAbsolute / 86400 + 36500.
Proof.
  intros H.
  pose (p := fun k => (unixToAbsolute / 86400 - 365 <=? time.daysSinceEpoch (1969 + k))
                      && (time.daysSinceEpoch (1969 + k) <=? unixToAbsolute / 86400 + 36500)).
  assert (Hp : p (year - 1969) = true).
  { apply (forallb_below p 100); [vm_compute; reflexivity | lia]. }
  unfold p in Hp. replace (1969 + (year - 1969)) with year in Hp by lia.
  apply andb_true_iff in Hp as [H1 H2]. lia.
Qed.

Lemma abs_representable (t : time.Time) :
  representable t -> time.abs t = time.unixSec t + time.offset t + unixToAbsolute.
Proof. intros H. unfold time.abs. now apply uint64_small. Qed.

Lemma unixToAbsolute_value : unixToAbsolute = 9223372028715321600.
Proof. vm_compute. reflexivity. Qed.

(** *** Format, then Parse

    One reading [t], its zone offset within a day of UTC, and the fields
    that [Format] computes for it. *)
Section Reading.

Variable t : time.Time.
Hypothesis Hoff : - 86400 < time.offset t < 86400.

Variables year month day yday hour min sec : Z.
Hypothesis Hdate : time.absDate (time.abs t) = (year, month, day, yday).
Hypothesis Hclock : time.absClock (time.abs t) = (hour, min, sec).

(** The zone offset in minutes, its sign apart. *)
Let zone : Z := Z.quot (time.offset t) 60.
Let az : Z := if zone <? 0 then - zone else zone.

Lemma abs_range : 0 <= time.abs t < 2 ^ 64.
Proof.
  unfold time.abs, time.uint64. change (2 ^ 64) with 18446744073709551616. dlia.
Qed.

Lemma date_in_range :
  1 <= month <= 12 /\ 1 <= day <= time.daysIn month year /\
  time.daysSinceEpoch year + time.daysBeforeAt (month - 1) +
    (if time.isLeap year && (3 <=? month) then 1 else 0) + (day - 1) =
  time.abs t / time.secondsPerDay.
Proof.
  destruct (absDate_spec _ abs_range) as (y' & m' & d' & yd' & E & Hm & Hd & _ & Hdays).
  rewrite Hdate in E. injection E as <- <- <- <-. auto.
Qed.

Lemma clock_in_range :
  0 <= hour < 24 /\ 0 <= min < 60 /\
  time.abs t / time.secondsPerDay * time.secondsPerDay
    + (hour * time.secondsPerHour + min * time.secondsPerMinute) =
  time.abs t - time.abs t mod 60.
Proof.
  destruct (absClock_spec _ (proj1 abs_range)) as (h' & mi' & s' & E & Hh & Hmi & _ & Hc).
  rewrite Hclock in E. injection E as <- <- <-. auto.
Qed.

Lemma day_in_range : 1 <= day <= 31.
Proof.
  destruct date_in_range as (Hm & Hd & _).
  pose proof (daysIn_le_31 month year Hm). lia.
Qed.

Lemma yearDigits_in_range : 0 <= yearDigits year < 100.
Proof. unfold yearDigits. destruct (Z.ltb_spec year 0); dlia. Qed.

Lemma zone_in_range : 0 <= Z.quot az 60 < 24 /\ 0 <= Z.rem az 60 < 60.
Proof.
  assert (Haz : 0 <= az < 1440)
    by (subst az zone; cbv zeta; destruct (Z.ltb_spec (Z.quot (time.offset t) 60) 0); dlia).
  clearbody az. dlia.
Qed.

Lemma zone_value :
  (if zone <? 0 then - ((Z.quot az 60 * 60 + Z.rem az 60) * 60)
   else (Z.quot az 60 * 60 + Z.rem az 60) * 60) = zoneMinutes t.
Proof.
  unfold zoneMinutes. fold zone. subst az. cbv zeta.
  destruct (Z.ltb_spec zone 0); clearbody zone; dlia.
Qed.

(** The text of [Format], piece by piece, is the pattern filled with the
    fields of the reading. *)
Lemma Format_text :
  time.Format t time.RFC822Z =
  RFC822Z_text day month (yearDigits year) hour min (zone <? 0) (Z.quot az 60) (Z.rem az 60).
Proof.
  destruct date_in_range as (Hm & _). destruct clock_in_range as (Hh & Hmi & _).
  pose proof day_in_range. pose proof yearDigits_in_range.
  destruct zone_in_range as (Hzh & Hzm).
  unfold time.Format, time.RFC822Z. cbn [fold_left].
  unfold time.appendChunk. rewrite Hdate, Hclock.
  fold zone. fold az. fold (yearDigits year).
  rewrite !appendInt_two by lia. rewrite month_abbreviation by exact Hm.
  unfold RFC822Z_text. rewrite !append_assoc. reflexivity.
Qed.

Lemma Format_in_pattern : wellFormed (time.Format t time.RFC822Z).
Proof.
  rewrite Format_text.
  exists day, month, (yearDigits year), hour, min, (zone <? 0), (Z.quot az 60), (Z.rem az 60).
  pose proof date_in_range as (Hm & _). pose proof clock_in_range as (Hh & Hmi & _).
  pose proof zone_in_range as (Hzh & Hzm).
  pose proof day_in_range. pose proof yearDigits_in_range.
  repeat (split; [assumption|]). reflexivity.
Qed.

(** [Parse] reads the fields back, the year from its two digits and the
    zone offset in whole minutes, and builds the date from them. *)
Lemma Parse_Format :
  time.Parse time.RFC822Z (time.Format t time.RFC822Z) =
  Ok (time.mkTime
        (time.int64 (time.unixSec (time.Date (century (yearDigits year)) month day hour min 0 0)
                     - zoneMinutes t))
        0 (zoneMinutes t)).
Proof.
  destruct date_in_range as (Hm & Hday & _). destruct clock_in_range as (Hh & Hmi & _).
  pose proof day_in_range as Hday31. pose proof yearDigits_in_range as Hyy.
  destruct zone_in_range as (Hzh & Hzm).
  rewrite Format_text. unfold RFC822Z_text.
  rewrite <- month_abbreviation by exact Hm.
  unfold time.Parse, time.RFC822Z. cbn [time.parseChunks].
  rewrite parseChunk_day by lia. cbn [String.append].
  rewrite parseChunk_space by (apply noSpaceAhead_month; exact Hm).
  rewrite parseChunk_month by exact Hm.
  rewrite parseChunk_space by (apply noSpaceAhead_two; exact Hyy).
  rewrite parseChunk_year by exact Hyy.
  rewrite parseChunk_space by (apply noSpaceAhead_two; lia).
  rewrite parseChunk_hour by exact Hh.
  rewrite parseChunk_colon.
  rewrite parseChunk_minute by exact Hmi.
  rewrite parseChunk_space by (destruct (zone <? 0); reflexivity).
  rewrite parseChunk_zone by lia.
  cbn [time.f_year time.f_month time.f_day time.f_hour time.f_min time.f_zoneOffset
       String.eqb negb].
  rewrite zone_value.
  destruct (Z.ltb_spec month 0); [lia|]. destruct (Z.ltb_spec day 0); [lia|].
  destruct (Z.ltb_spec day 1); [lia|]. cbn [orb].
  pose proof (daysIn_century month year Hm) as Hcen.
  destruct (Z.ltb_spec (time.daysIn month (century (yearDigits year))) day); [lia|].
  rewrite Date_nsec.
  destruct (Z.eqb_spec (zoneMinutes t) (-1)) as [E|_]; [unfold zoneMinutes in E; lia|].
  reflexivity.
Qed.

(** Inside the years 1969 to 2068, and in a zone of whole minutes, the
    text parses back to the minute in which it was written. *)
Lemma Parse_Format_window :
  representable t ->
  1969 <= year <= 2068 ->
  Z.rem (time.offset t) 60 = 0 ->
  time.Parse time.RFC822Z (time.Format t time.RFC822Z) =
  Ok (time.mkTime (time.unixSec t - (time.unixSec t + time.offset t) mod 60) 0 (time.offset t)).
Proof.
  intros Hrep Hyear Hmin.
  destruct date_in_range as (Hm & Hday & Hdays).
  destruct clock_in_range as (Hh & Hmi & Hclk).
  rewrite Parse_Format, century_yearDigits by exact Hyear.
  assert (Ezo : zoneMinutes t = time.offset t) by (unfold zoneMinutes; dlia).
  rewrite Ezo.
  pose proof (daysSinceEpoch_1969_2068 year Hyear) as Hdse.
  pose proof (daysIn_le_31 month year Hm) as H31.
  assert (Hbefore : 0 <= time.daysBeforeAt (month - 1) <= 334)
    by (each_month month Hm; vm_compute; split; intros E; discriminate E).
  rewrite unixToAbsolute_value in Hdse.
  change (9223372028715321600 / 86400) with 106751991073094 in Hdse.
  assert (Hd : 106751991073094 - 365 <= time.abs t / time.secondsPerDay
               <= 106751991073094 + 36500 + 366).
  { rewrite <- Hdays. destruct (time.isLeap year && (3 <=? month)); lia. }
  rewrite Date_unix; try assumption.
  - cbv zeta. rewrite Hdays, Hclk.
    rewrite (abs_representable t Hrep) in *.
    rewrite unixToAbsolute_value in *.
    change time.secondsPerDay with 86400 in Hd.
    set (w := time.unixSec t + time.offset t) in *.
    assert (Hw : - 86400 * 366 <= w <= 86400 * (36500 + 367)) by dlia.
    replace (w + 9223372028715321600 - (w + 9223372028715321600) mod 60 - 9223372028715321600)
      with (w - w mod 60) by dlia.
    cbn [time.unixSec].
    rewrite (int64_small (w - w mod 60)) by dlia.
    rewrite int64_small by (subst w; dlia).
    subst w. do 2 f_equal. lia.
  - cbv zeta. rewrite Hdays. change time.secondsPerDay with 86400 in *. lia.
  - cbv zeta. rewrite Hdays. change time.secondsPerDay with 86400 in *.
    change (2 ^ 64) with 18446744073709551616. lia.
Qed.

End Reading.

Lemma Format_wellFormed (t : time.Time) :
  - 86400 < time.offset t < 86400 -> wellFormed (time.Format t time.RFC822Z).
Proof.
  intros Hoff.
  destruct (time.absDate (time.abs t)) as [[[year month] day] yday] eqn:Ed.
  destruct (time.absClock (time.abs t)) as [[hour min] sec] eqn:Ec.
  exact (Format_in_pattern t Hoff _ _ _ _ _ _ _ Ed Ec).
Qed.

(** ** The formatter as a function of the minute *)

Lemma absDate_same_day (a b : Z) :
  a / 60 = b / 60 -> time.absDate a = time.absDate b.
Proof.
  intros H. rewrite !absDate_eq. change time.secondsPerDay with 86400.
  replace (b / 86400) with (a / 86400) by dlia. reflexivity.
Qed.

Lemma absClock_same_minute (a b : Z) :
  a / 60 = b / 60 ->
  fst (time.absClock a) = fst (time.absClock b).
Proof.
  intros H. unfold time.absClock.
  change time.secondsPerDay with 86400. change time.secondsPerHour with 3600.
  change time.secondsPerMinute with 60. cbv zeta. cbn [fst].
  assert (Eh : a mod 86400 / 3600 = b mod 86400 / 3600) by dlia.
  rewrite <- Eh. f_equal.
  set (h := a mod 86400 / 3600) in *.
  assert (Hh : 3600 * h <= a mod 86400 < 3600 * h + 3600) by (subst h; dlia).
  assert (Hh' : 3600 * h <= b mod 86400 < 3600 * h + 3600) by (rewrite Eh; dlia).
  clearbody h. dlia.
Qed.

Lemma appendChunk_same_minute (t1 t2 : time.Time) (c : time.chunk) :
  time.offset t1 = time.offset t2 ->
  time.abs t1 / 60 = time.abs t2 / 60 ->
  time.appendChunk t1 c = time.appendChunk t2 c.
Proof.
  intros Ho Ha. unfold time.appendChunk.
  rewrite (absDate_same_day _ _ Ha), Ho.
  pose proof (absClock_same_minute _ _ Ha) as Hc.
  destruct (time.absClock (time.abs t1)) as [[h1 m1] s1].
  destruct (time.absClock (time.abs t2)) as [[h2 m2] s2].
  cbn [fst] in Hc. injection Hc as -> ->. reflexivity.
Qed.

Lemma Format_same_minute (t1 t2 : time.Time) (layout : list time.chunk) :
  time.offset t1 = time.offset t2 ->
  time.abs t1 / 60 = time.abs t2 / 60 ->
  time.Format t1 layout = time.Format t2 layout.
Proof.
  intros Ho Ha. unfold time.Format. generalize "".
  induction layout as [|c layout IH]; intros b; cbn [fold_left]; [reflexivity|].
  rewrite (appendChunk_same_minute t1 t2 c Ho Ha). apply IH.
Qed.

(** C7: two invocations of the formatter in the same wall-clock minute
    of the same zone return the same text. *)
Theorem currentTime_same_minute (c1 c2 : time.Clock) :
  let t1 := time.reading c1 (time.calls c1) in
  let t2 := time.reading c2 (time.calls c2) in
  representable t1 -> representable t2 ->
  time.offset t1 = time.offset t2 ->
  wallMinute t1 = wallMinute t2 ->
  fst (currentTime c1) = fst (currentTime c2).
Proof.
  intros t1 t2 H1 H2 Ho Hm. unfold currentTime, time.Now. cbn [fst].
  fold t1 t2. apply Format_same_minute; [exact Ho|].
  rewrite (abs_representable t1 H1), (abs_representable t2 H2).
  unfold wallMinute in Hm. rewrite unixToAbsolute_value. dlia.
Qed.

(** ** Round trip *)




Lemma currentTime_same_minute_witness :
  fst (currentTime (time.mkClock (fun _ => time.mkTime 1474627140 0 3600) 0)) =
  fst (currentTime (time.mkClock (fun _ => time.mkTime 1474627199 999999999 3600) 7)).
Proof.
  apply (currentTime_same_minute
           (time.mkClock (fun _ => time.mkTime 1474627140 0 3600) 0)
           (time.mkClock (fun _ => time.mkTime 1474627199 999999999 3600) 7)).
  - unfold representable. split; vm_compute; [intros E; discriminate E | reflexivity].
  - unfold representable. split; vm_compute; [intros E; discriminate E | reflexivity].
  - reflexivity.
  - reflexivity.
Defined.

(** ** The repository's test *)

(** [TestCurrentTime] never calls [t.Fail()]: whatever instant the clock
    shows, in a zone within a day of UTC, the text of [currentTime]
    parses with the layout RFC822Z, and the test leaves its [*testing.T]
    as it found it, after one reading of the clock. *)
Theorem TestCurrentTime_passes (t : testing.T) (c : time.Clock) :
  - 86400 < time.offset (time.reading c (time.calls c)) < 86400 ->
  TestCurrentTime t c = (t, time.mkClock (time.reading c) (S (time.calls c))).
Proof.
  intros Hoff. unfold TestCurrentTime, currentTime, time.Now.
  destruct (time.absDate (time.abs (time.reading c (time.calls c))))
    as [[[year month] day] yday] eqn:Ed.
  destruct (time.absClock (time.abs (time.reading c (time.calls c))))
    as [[hour min] sec] eqn:Ec.
  rewrite (Parse_Format _ Hoff _ _ _ _ _ _ _ Ed Ec). reflexivity.
Qed.

Lemma TestCurrentTime_passes_witness :
  testing.failed
    (fst (TestCurrentTime (testing.mkT false)
            (time.mkClock (fun _ => t_2016_09_23_1139) 0))) = false.
Proof.
  rewrite (TestCurrentTime_passes (testing.mkT false)
             (time.mkClock (fun _ => t_2016_09_23_1139) 0)).
  - reflexivity.
  - cbn [time.reading time.calls]. unfold t_2016_09_23_1139. cbn [time.offset]. lia.
Defined.

(** ** The text names the minute *)

Lemma Year_eq (t : time.Time) (year month day yday : Z) :
  time.absDate (time.abs t) = (year, month, day, yday) -> Year t = year.
Proof. unfold Year. now intros ->. Qed.

(** The converse of the reading of the formatter as a function of the
    minute: between 1969 and 2068, in zones of whole minutes, two
    invocations return the same text exactly when they fall in the same
    wall-clock minute of the same zone.  A client can tell any two
    minutes of that century apart. *)
Theorem currentTime_text_names_the_minute (c1 c2 : time.Clock) :
  let t1 := time.reading c1 (time.calls c1) in
  let t2 := time.reading c2 (time.calls c2) in
  - 86400 < time.offset t1 < 86400 -> - 86400 < time.offset t2 < 86400 ->
  representable t1 -> representable t2 ->
  1969 <= Year t1 <= 2068 -> 1969 <= Year t2 <= 2068 ->
  Z.rem (time.offset t1) 60 = 0 -> Z.rem (time.offset t2) 60 = 0 ->
  (fst (currentTime c1) = fst (currentTime c2) <->
   time.offset t1 = time.offset t2 /\ wallMinute t1 = wallMinute t2).
Proof.
  intros t1 t2 Ho1 Ho2 Hr1 Hr2 Hy1 Hy2 Hm1 Hm2.
  unfold currentTime, time.Now. cbn [fst]. fold t1 t2. split.
  - intros Heq.
    destruct (time.absDate (time.abs t1)) as [[[y1 mo1] d1] yd1] eqn:Ed1.
    destruct (time.absClock (time.abs t1)) as [[h1 mi1] s1] eqn:Ec1.
    destruct (time.absDate (time.abs t2)) as [[[y2 mo2] d2] yd2] eqn:Ed2.
    destruct (time.absClock (time.abs t2)) as [[h2 mi2] s2] eqn:Ec2.
    rewrite (Year_eq t1 _ _ _ _ Ed1) in Hy1. rewrite (Year_eq t2 _ _ _ _ Ed2) in Hy2.
    pose proof (Parse_Format_window t1 Ho1 _ _ _ _ _ _ _ Ed1 Ec1 Hr1 Hy1 Hm1) as P1.
    pose proof (Parse_Format_window t2 Ho2 _ _ _ _ _ _ _ Ed2 Ec2 Hr2 Hy2 Hm2) as P2.
    rewrite Heq, P2 in P1. injection P1 as Hu Ho.
    split; [symmetry; exact Ho|]. unfold wallMinute. rewrite Ho in Hu. dlia.
  - intros [Ho Hm]. apply Format_same_minute; [exact Ho|].
    rewrite (abs_representable t1 Hr1), (abs_representable t2 Hr2).
    unfold wallMinute in Hm. rewrite unixToAbsolute_value. dlia.
Qed.

Lemma currentTime_text_names_the_minute_witness :
  fst (currentTime (time.mkClock (fun _ => time.mkTime 1474627140 0 3600) 0)) =
  fst (currentTime (time.mkClock (fun _ => time.mkTime 1474627200 0 3600) 0)) <->
  3600 = 3600 /\
  wallMinute (time.mkTime 1474627140 0 3600) = wallMinute (time.mkTime 1474627200 0 3600).
Proof.
  apply (currentTime_text_names_the_minute
           (time.mkClock (fun _ => time.mkTime 1474627140 0 3600) 0)
           (time.mkClock (fun _ => time.mkTime 1474627200 0 3600) 0)).
  - cbn [time.reading time.calls time.offset]. lia.
  - cbn [time.reading time.calls time.offset]. lia.
  - unfold representable. split; vm_compute; [intros E; discriminate E | reflexivity].
  - unfold representable. split; vm_compute; [intros E; discriminate E | reflexivity].
  - change (Year (time.reading (time.mkClock (fun _ => time.mkTime 1474627140 0 3600) 0)
                    (time.calls (time.mkClock (fun _ => time.mkTime 1474627140 0 3600) 0))))
      with 2016. lia.
  - change (Year (time.reading (time.mkClock (fun _ => time.mkTime 1474627200 0 3600) 0)
                    (time.calls (time.mkClock (fun _ => time.mkTime 1474627200 0 3600) 0))))
      with 2016. lia.
  - reflexivity.
  - reflexivity.
Defined.

(** ** From the server's clock to the client *)

(** The whole path: a client that reads the body as a JSON object, takes
    its member FormattedTime and parses it with the layout RFC822Z gets a
    time; between 1969 and 2068 and in a zone of whole minutes it is the
    instant of the request cut to the minute, in the server's zone. *)
Theorem client_reads_the_minute (h : http.Header) (r : http.Request) (c : time.Clock) :
  let now := time.reading c (time.calls c) in
  - 86400 < time.offset now < 86400 ->
  exists obj text t',
    json.readObject (http.body (served h r c)) = Some obj /\
    json.member "FormattedTime" obj = Some text /\
    time.Parse time.RFC822Z text = Ok t' /\
    (representable now -> 1969 <= Year now <= 2068 -> Z.rem (time.offset now) 60 = 0 ->
     time.offset t' = time.offset now /\
     time.unixSec t' = 60 * wallMinute now - time.offset now).
Proof.
  intros now Hoff. unfold served. rewrite handler_run.
  cbn [fst http.wire http.body]. fold now. rewrite append_empty_r.
  rewrite readObject_successBody by apply plain_Format.
  unfold Year.
  destruct (time.absDate (time.abs now)) as [[[year month] day] yday] eqn:Ed.
  destruct (time.absClock (time.abs now)) as [[hour min] sec] eqn:Ec.
  eexists. exists (time.Format now time.RFC822Z). eexists.
  split; [reflexivity|]. split; [reflexivity|].
  split; [apply (Parse_Format now Hoff _ _ _ _ _ _ _ Ed Ec)|].
  cbn [fst]. intros Hrep Hyear Hmin.
  pose proof (Parse_Format_window now Hoff _ _ _ _ _ _ _ Ed Ec Hrep Hyear Hmin) as Hw.
  rewrite (Parse_Format now Hoff _ _ _ _ _ _ _ Ed Ec) in Hw.
  injection Hw as Hu Ho. cbn [time.offset time.unixSec].
  rewrite Hu, Ho. split; [reflexivity|]. unfold wallMinute. dlia.
Qed.

Lemma client_reads_the_minute_witness :
  exists obj text t',
    json.readObject
      (http.body (served ∅ (http.mkRequest "GET" "/" ∅ "")
                    (time.mkClock (fun _ => t_2016_09_23_1139) 0))) = Some obj /\
    json.member "FormattedTime" obj = Some text /\
    time.Parse time.RFC822Z text = Ok t' /\
    time.offset t' = 3600 /\
    time.unixSec t' = 1474627140.
Proof.
  assert (Hoff : - 86400 < 3600 < 86400) by lia.
  destruct (client_reads_the_minute ∅ (http.mkRequest "GET" "/" ∅ "")
              (time.mkClock (fun _ => t_2016_09_23_1139) 0) Hoff)
    as (obj & text & t' & Hobj & Hmem & HP & Hwin).
  exists obj, text, t'. repeat (split; [assumption|]).
  apply Hwin.
  - unfold representable. split; vm_compute; [intros E; discriminate E | reflexivity].
  - change (Year (time.reading (time.mkClock (fun _ => t_2016_09_23_1139) 0)
                    (time.calls (time.mkClock (fun _ => t_2016_09_23_1139) 0))))
      with 2016. lia.
  - reflexivity.
Defined.

(** ** What the handler leaves alone *)

(** The handler sets one header and touches no other: every header key
    apart from Content-Type goes out with the values the writer held when
    the handler was called, and a key that was absent stays absent. *)
Theorem handler_keeps_other_headers
  (h : http.Header) (r : http.Request) (c : time.Clock) (key : string) :
  key <> "Content-Type" ->
  exists hdr, http.headers (served h r c) = Some hdr /\ hdr !! key = h !! key.
Proof.
  intros Hkey. unfold served. rewrite handler_run. cbn [fst http.wire http.headers].
  exists (jsonHeader h). split; [reflexivity|].
  unfold jsonHeader. apply lookup_insert_ne. congruence.
Qed.

Lemma handler_keeps_other_headers_witness :
  exists hdr,
    http.headers (served (<["Server" := ["servertime"]]> ∅)
                    (http.mkRequest "GET" "/" ∅ "")
                    (time.mkClock (fun _ => t_2016_09_23_1139) 0)) = Some hdr /\
    hdr !! "Server" = (<["Server" := ["servertime"]]> ∅ : http.Header) !! "Server".
Proof.
  apply (handler_keeps_other_headers (<["Server" := ["servertime"]]> ∅)
           (http.mkRequest "GET" "/" ∅ "")
           (time.mkClock (fun _ => t_2016_09_23_1139) 0) "Server").
  discriminate.
Defined.





(** ** The size of the response *)

Lemma length_two (n : Z) : String.length (two n) = 2%nat.
Proof. reflexivity. Qed.

Lemma length_successBody (t : string) :
  String.length (successBody t) = (String.length t + 42)%nat.
Proof.
  unfold successBody, quoted. rewrite !length_append. cbn [String.length].
  rewrite !length_append. cbn [String.length]. lia.
Qed.

Lemma length_wellFormed (s : string) : wellFormed s -> String.length s = 21%nat.
Proof.
  intros (day & month & yy & hour & min & neg & zh & zm & _ & Hm & _ & _ & _ & _ & _ & ->).
  unfold RFC822Z_text. rewrite !length_append, !length_two.
  destruct neg; each_month month Hm; reflexivity.
Qed.

(** Every formatted time is 21 bytes long, so every response body has
    the same length, 63 bytes: the time never adds or drops a
    character, whatever the instant. *)
Theorem response_has_fixed_size (h : http.Header) (r : http.Request) (c : time.Clock) :
  - 86400 < time.offset (time.reading c (time.calls c)) < 86400 ->
  String.length (fst (currentTime c)) = 21%nat /\
  String.length (http.body (served h r c)) = 63%nat.
Proof.
  intros Hoff.
  assert (Ht : String.length (time.Format (time.reading c (time.calls c)) time.RFC822Z) = 21%nat)
    by (apply length_wellFormed, Format_wellFormed, Hoff).
  split; [exact Ht|].
  unfold served. rewrite handler_run. cbn [fst http.wire http.body].
  rewrite append_empty_r, length_successBody, Ht. reflexivity.
Qed.

Lemma response_has_fixed_size_witness :
  String.length (fst (currentTime (time.mkClock (fun _ => t_2016_09_23_1139) 0))) = 21%nat /\
  String.length
    (http.body (served ∅ (http.mkRequest "GET" "/" ∅ "")
                  (time.mkClock (fun _ => t_2016_09_23_1139) 0))) = 63%nat.
Proof.
  apply (response_has_fixed_size ∅ (http.mkRequest "GET" "/" ∅ "")
           (time.mkClock (fun _ => t_2016_09_23_1139) 0)).
  cbn [time.reading time.calls]. unfold t_2016_09_23_1139. cbn [time.offset]. lia.
Defined.

(** ** The first version *)

(** *** Texts and their bytes *)

Lemma every_append (p : ascii -> bool) (a b : string) :
  every p (a +:+ b) = every p a && every p b.
Proof.
  induction a as [|x a IH]; simpl; [reflexivity|].
  now rewrite IH, andb_assoc.
Qed.

Lemma every_impl (p q : ascii -> bool) (s : string) :
  (forall c, p c = true -> q c = true) -> every p s = true -> every q s = true.
Proof.
  intros Hpq. induction s as [|x s IH]; simpl; [reflexivity|].
  intros H. apply andb_true_iff in H as [Hx Hs].
  now rewrite (Hpq x Hx), IH.
Qed.



Lemma get_append_r (a b : string) (n : nat) :
  String.get (String.length a + n) (a +:+ b) = String.get n b.
Proof. induction a as [|x a IH]; simpl; [reflexivity | exact IH]. Qed.

Lemma substring_append_r (a b : string) (n m : nat) :
  substring (String.length a + n) m (a +:+ b) = substring n m b.
Proof. induction a as [|x a IH]; simpl; [reflexivity | exact IH]. Qed.

Lemma substring_all (s : string) : substring 0 (String.length s) s = s.
Proof. induction s as [|x s IH]; simpl; [reflexivity | now rewrite IH]. Qed.

Lemma length_zeros (n : nat) : String.length (time.zeros n) = n.
Proof. induction n as [|n IH]; simpl; [reflexivity | now rewrite IH]. Qed.

(** *** The digits of a number *)

Lemma digits_utoa (fuel : nat) : forall u acc,
  every time.isDigitByte acc = true -> every time.isDigitByte (time.utoa fuel u acc) = true.
Proof.
  induction fuel as [|fuel IH]; intros u acc Hacc; simpl; [exact Hacc|].
  assert (Hd : time.isDigitByte (time.digit (u mod 10)) = true).
  { apply digit_spec. apply Z.mod_pos_bound. lia. }
  destruct (u / 10 =? 0).
  - simpl. now rewrite Hd.
  - apply IH. simpl. now rewrite Hd.
Qed.

Lemma digits_itoa (u : Z) : every time.isDigitByte (time.itoa u) = true.
Proof. unfold time.itoa. now apply digits_utoa. Qed.

Lemma digits_zeros (n : nat) : every time.isDigitByte (time.zeros n) = true.
Proof. induction n as [|n IH]; simpl; [reflexivity | exact IH]. Qed.

Lemma numeric_appendInt (x : Z) (width : nat) : every numeric (time.appendInt x width) = true.
Proof.
  unfold time.appendInt. rewrite !every_append.
  assert (Hn : forall s, every time.isDigitByte s = true -> every numeric s = true).
  { intros s. apply every_impl. intros c Hc. unfold numeric. now rewrite Hc. }
  rewrite (Hn _ (digits_zeros _)), (Hn _ (digits_itoa _)).
  now destruct (x <? 0).
Qed.




(** The first digit of a positive number is not zero. *)
Lemma utoa_head (fuel : nat) : forall u acc,
  0 < u < 2 ^ Z.of_nat fuel ->
  exists d rest, time.utoa fuel u acc = String (time.digit d) rest /\ 1 <= d <= 9.
Proof.
  induction fuel as [|fuel IH]; intros u acc Hu.
  - change (2 ^ Z.of_nat 0) with 1 in Hu. lia.
  - simpl. destruct (Z.eqb_spec (u / 10) 0) as [E|Hne].
    + exists (u mod 10), acc. split; [reflexivity | dlia].
    + apply IH. rewrite Nat2Z.inj_succ, Z.pow_succ_r in Hu by lia.
      assert (HP : 0 < 2 ^ Z.of_nat fuel) by (apply Z.pow_pos_nonneg; lia).
      revert Hu HP. generalize (2 ^ Z.of_nat fuel). intros P Hu HP. dlia.
Qed.

Lemma itoa_head (u : Z) :
  0 < u -> exists d rest, time.itoa u = String (time.digit d) rest /\ 1 <= d <= 9.
Proof.
  intros Hu. unfold time.itoa. apply utoa_head.
  rewrite Nat2Z.inj_succ, Z2Nat.id by apply Z.log2_nonneg.
  pose proof (Z.log2_spec u Hu) as H. lia.
Qed.

(** *** The fraction of a second *)

Lemma trimRight_empty (c : ascii) (s : string) :
  time_json.trimRight c s = "" -> every (fun x => Ascii.eqb x c) s = true.
Proof.
  induction s as [|x s IH]; simpl; [reflexivity|].
  destruct (time_json.trimRight c s) as [|y r]; [|discriminate].
  destruct (Ascii.eqb x c); [|discriminate].
  intros _. now apply IH.
Qed.

Lemma trimRight_append (c : ascii) (p s : string) :
  time_json.trimRight c s <> "" ->
  time_json.trimRight c (p +:+ s) = p +:+ time_json.trimRight c s.
Proof.
  intros Hs. induction p as [|x p IH]; simpl; [reflexivity|].
  rewrite IH. destruct p as [|y p]; simpl.
  - destruct (time_json.trimRight c s); [contradiction | reflexivity].
  - reflexivity.
Qed.

Lemma every_trimRight (p : ascii -> bool) (c : ascii) (s : string) :
  every p s = true -> every p (time_json.trimRight c s) = true.
Proof.
  induction s as [|x s IH]; simpl; [reflexivity|].
  intros H. apply andb_true_iff in H as [Hx Hs]. specialize (IH Hs).
  destruct (time_json.trimRight c s) as [|y r].
  - destruct (Ascii.eqb x c); simpl; [reflexivity | now rewrite Hx].
  - simpl in *. now rewrite Hx.
Qed.

Lemma dropLast_append (c : ascii) (p s : string) :
  s <> "" -> time_json.dropLast c (p +:+ s) = p +:+ time_json.dropLast c s.
Proof.
  intros Hs. induction p as [|x p IH]; [reflexivity|].
  cbn [String.append]. cbn [time_json.dropLast]. rewrite IH.
  destruct (p +:+ s) eqn:E; [|reflexivity].
  destruct p; [contradiction | discriminate E].
Qed.

Lemma dropLast_absent (c : ascii) (s : string) :
  every (fun x => negb (Ascii.eqb x c)) s = true -> time_json.dropLast c s = s.
Proof.
  induction s as [|x s IH]; [reflexivity|].
  cbn [every]. intros H. apply andb_true_iff in H as [Hx Hs].
  cbn [time_json.dropLast]. rewrite (IH Hs).
  destruct s; [|reflexivity].
  apply negb_true_iff in Hx. now rewrite Hx.
Qed.

Lemma numeric_no_point (s : string) :
  every numeric s = true -> every (fun x => negb (Ascii.eqb x ".")) s = true.
Proof.
  apply every_impl. intros c Hc.
  destruct (Ascii.eqb_spec c ".") as [->|_]; [discriminate Hc | reflexivity].
Qed.

(** The nine digits of a fraction that is not zero do not consist of
    zeros only. *)
Lemma trimRight_appendInt (n : Z) (width : nat) :
  n <> 0 -> time_json.trimRight "0" (time.appendInt n width) <> "".
Proof.
  intros Hn E. apply trimRight_empty in E. unfold time.appendInt in E.
  destruct (Z.ltb_spec n 0) as [Hneg|Hpos].
  - discriminate E.
  - cbn [String.append] in E. rewrite every_append in E.
    apply andb_true_iff in E as [_ E].
    destruct (itoa_head (Z.abs n) ltac:(lia)) as (d & rest & Ed & Hd).
    rewrite Ed in E. cbn [every] in E. apply andb_true_iff in E as [E _].
    assert (Hc : d = 1 \/ d = 2 \/ d = 3 \/ d = 4 \/ d = 5 \/ d = 6 \/ d = 7 \/ d = 8 \/ d = 9)
      by lia.
    destruct Hc as [->|[->|[->|[->|[->|[->|[->|[->| ->]]]]]]]]; discriminate E.
Qed.

(** [appendNano] leaves the buffer as it is and adds the fraction. *)
Lemma appendNano_fraction (b : string) (n : Z) :
  time_json.appendNano b n = b +:+ fraction n.
Proof.
  unfold time_json.appendNano, fraction.
  destruct (Z.eqb_spec n 0) as [_|Hn]; [now rewrite append_empty_r|].
  cbv zeta. rewrite trimRight_append by (apply trimRight_appendInt; exact Hn).
  rewrite dropLast_append by (apply trimRight_appendInt; exact Hn).
  rewrite dropLast_absent.
  - now rewrite append_assoc.
  - apply numeric_no_point, every_trimRight, numeric_appendInt.
Qed.

(** *** The text of [appendFormatRFC3339] *)

Lemma appendInt_four (n : Z) : 0 <= n < 10000 -> time.appendInt n 4 = four n.
Proof.
  intros H. apply String.eqb_eq.
  apply (forallb_below (fun n => String.eqb (time.appendInt n 4) (four n)) (Z.to_nat 10000));
    [vm_compute; reflexivity | rewrite Z2Nat.id; lia].
Qed.

Lemma length_appendInt (x : Z) (width : nat) :
  (width <= String.length (time.appendInt x width))%nat.
Proof.
  unfold time.appendInt. rewrite !length_append, length_zeros. lia.
Qed.

(** Whatever the time, the text starts with the year as [appendInt]
    writes it. *)
Lemma appendFormatRFC3339_year (t : time.Time) (b : string) :
  exists rest,
    time_json.appendFormatRFC3339 t b true = b +:+ time.appendInt (Year t) 4 +:+ rest /\
    (2 <= String.length rest)%nat.
Proof.
  unfold time_json.appendFormatRFC3339, Year.
  destruct (time.absDate (time.abs t)) as [[[year month] day] yday].
  destruct (time.absClock (time.abs t)) as [[hour min] sec].
  cbn [fst]. rewrite appendNano_fraction.
  destruct (time.offset t =? 0).
  - rewrite !append_assoc. eexists. split; [reflexivity|].
    cbn [String.append String.length]. rewrite length_append.
    pose proof (length_appendInt month 2). lia.
  - destruct (Z.quot (time.offset t) 60 <? 0); rewrite !append_assoc;
      (eexists; split; [reflexivity|]);
      cbn [String.append String.length]; rewrite length_append;
      pose proof (length_appendInt month 2); lia.
Qed.

(** The indices that [appendStrictRFC3339] takes exist in the text it
    has formatted, for every time and every buffer. *)
Lemma strict_indices_in_range (t : time.Time) (b : string) :
  let b' := time_json.appendFormatRFC3339 t b true in
  (String.length b + String.length "9999" < String.length b')%nat /\
  (String.length "Z07:00" <= String.length b')%nat.
Proof.
  cbv zeta. destruct (appendFormatRFC3339_year t b) as (rest & -> & Hrest).
  rewrite !length_append. pose proof (length_appendInt (Year t) 4).
  cbn [String.length]. lia.
Qed.

Lemma sec_in_range (t : time.Time) (hour min sec : Z) :
  time.absClock (time.abs t) = (hour, min, sec) -> 0 <= sec < 60.
Proof.
  intros E.
  destruct (absClock_spec (time.abs t) (proj1 (abs_range t))) as (h & m & s & E' & _ & _ & Hs & _).
  rewrite E in E'. injection E' as -> -> ->. dlia.
Qed.

Section ReadingRFC3339.

Variable t : time.Time.
Hypothesis Hoff : - 86400 < time.offset t < 86400.

Variables year month day yday hour min sec : Z.
Hypothesis Hdate : time.absDate (time.abs t) = (year, month, day, yday).
Hypothesis Hclock : time.absClock (time.abs t) = (hour, min, sec).
Hypothesis Hyear : 0 <= year <= 9999.

Lemma appendFormatRFC3339_text (b : string) :
  time_json.appendFormatRFC3339 t b true =
  b +:+ RFC3339_text year month day hour min sec (time.nsec t) (time.offset t).
Proof.
  destruct (date_in_range t _ _ _ _ Hdate) as (Hm & _).
  destruct (clock_in_range t _ _ _ Hclock) as (Hh & Hmi & _).
  pose proof (day_in_range t _ _ _ _ Hdate) as Hd.
  pose proof (sec_in_range t _ _ _ Hclock) as Hs.
  destruct (zone_in_range t Hoff) as (Hzh & Hzm).
  unfold time_json.appendFormatRFC3339. rewrite Hdate, Hclock.
  rewrite appendNano_fraction. unfold time_json.Nanosecond.
  rewrite appendInt_four by lia. rewrite !appendInt_two by lia.
  unfold RFC3339_text, RFC3339_local, zoneSuffix.
  destruct (time.offset t =? 0); [now rewrite !append_assoc|].
  cbv zeta.
  destruct (Z.quot (time.offset t) 60 <? 0);
    rewrite !appendInt_two by lia; now rewrite !append_assoc.
Qed.

End ReadingRFC3339.

(** *** The check for strict RFC 3339 *)

Lemma num2_two (n : Z) (rest : string) :
  0 <= n < 100 -> time_json.num2 (two n +:+ rest) = n.
Proof.
  intros Hn. unfold time_json.num2, index, two. cbn [String.append String.get].
  destruct (digit_spec (n / 10) ltac:(dlia)) as (_ & -> & _).
  destruct (digit_spec (n mod 10) ltac:(dlia)) as (_ & -> & _).
  unfold time_json.uint8. dlia.
Qed.

Lemma index_last (pre : string) (x : ascii) :
  index (pre +:+ String x "") (String.length (pre +:+ String x "") - 1) = byteZ x.
Proof.
  rewrite length_append. cbn [String.length].
  replace (String.length pre + 1 - 1)%nat with (String.length pre + 0)%nat by lia.
  unfold index. now rewrite get_append_r.
Qed.

(** Where the checks look when the text ends in a zone of six bytes. *)
Lemma zone_suffix_indices (pre : string) (sg h1 h2 m1 m2 : ascii) :
  let hm := String h1 (String h2 (String ":" (String m1 (String m2 "")))) in
  let b := pre +:+ String sg hm in
  index b (String.length b - 1) = byteZ m2 /\
  index b (String.length b - 6) = byteZ sg /\
  substring (String.length b - 5) 5 b = hm.
Proof.
  cbv zeta. rewrite length_append. cbn [String.length].
  replace (String.length pre + 6 - 1)%nat with (String.length pre + 5)%nat by lia.
  replace (String.length pre + 6 - 6)%nat with (String.length pre + 0)%nat by lia.
  replace (String.length pre + 6 - 5)%nat with (String.length pre + 1)%nat by lia.
  unfold index. rewrite !get_append_r, substring_append_r. repeat split.
Qed.

Lemma digit_is_no_Z (d : Z) : 0 <= d < 10 -> (byteZ (time.digit d) =? byteZ "Z") = false.
Proof.
  intros H. destruct (digit_cases d H) as [->|[->|[->|[->|[->|[->|[->|[->|[->| ->]]]]]]]]];
    reflexivity.
Qed.



(** The checks on a text that ends in sign, hours, colon and minutes. *)
Lemma strict_zone (pre : string) (sg : ascii) (zh zm : Z) :
  0 <= zh < 24 -> 0 <= zm < 60 -> byteZ sg = 43 \/ byteZ sg = 45 ->
  let b := pre +:+ String sg (two zh +:+ ":" +:+ two zm) in
  (index b (String.length b - 1) =? byteZ "Z") = false /\
  (byteZ "0" <=? index b (String.length b - 6)) &&
    (index b (String.length b - 6) <=? byteZ "9") = false /\
  (24 <=? time_json.num2 (substring (String.length b - 5) 5 b)) = false.
Proof.
  intros Hzh Hzm Hsg. cbv zeta.
  destruct (zone_suffix_indices pre sg
              (time.digit (zh / 10)) (time.digit (zh mod 10))
              (time.digit (zm / 10)) (time.digit (zm mod 10))) as (I1 & I6 & I5).
  cbv zeta in I1, I6, I5.
  change (two zh +:+ ":" +:+ two zm)
    with (String (time.digit (zh / 10))
            (String (time.digit (zh mod 10))
               (String ":" (String (time.digit (zm / 10))
                              (String (time.digit (zm mod 10)) ""))))).
  rewrite I1, I6, I5. split; [apply digit_is_no_Z; dlia|]. split.
  - change (byteZ "0") with 48. destruct Hsg as [-> | ->]; reflexivity.
  - change (String (time.digit (zh / 10))
              (String (time.digit (zh mod 10))
                 (String ":" (String (time.digit (zm / 10))
                                (String (time.digit (zm mod 10)) "")))))
      with (two zh +:+ (":" +:+ two zm)).
    rewrite num2_two by lia. lia.
Qed.

Section MarshalRFC3339.

Variable t : time.Time.
Hypothesis Hoff : - 86400 < time.offset t < 86400.

Variables year month day yday hour min sec : Z.
Hypothesis Hdate : time.absDate (time.abs t) = (year, month, day, yday).
Hypothesis Hclock : time.absClock (time.abs t) = (hour, min, sec).
Hypothesis Hyear : 0 <= year <= 9999.

Let text : string := RFC3339_text year month day hour min sec (time.nsec t) (time.offset t).

Lemma appendStrictRFC3339_passes :
  time_json.appendStrictRFC3339 t (String json.quote "") = (String json.quote text, None).
Proof.
  destruct (zone_in_range t Hoff) as (Hzh & Hzm).
  unfold time_json.appendStrictRFC3339.
  rewrite (appendFormatRFC3339_text t Hoff _ _ _ _ _ _ _ Hdate Hclock Hyear).
  fold text.
  change (String.length (String json.quote "") + String.length "9999")%nat with 5%nat.
  change (String.length "Z07:00") with 6%nat.
  change (String.length "07:00") with 5%nat.
  change (String json.quote text) with (String json.quote "" +:+ text).
  remember (String json.quote "" +:+ text) as b eqn:Eb.
  cbv zeta.
  assert (E1 : index b 5 = byteZ "-").
  { subst b. unfold text, RFC3339_text, RFC3339_local, four, two.
    cbn [String.append]. unfold index. cbn [String.get]. reflexivity. }
  rewrite E1, Z.eqb_refl. cbn [negb].
  unfold text, RFC3339_text in Eb. rewrite <- append_assoc in Eb.
  revert Eb.
  generalize (String json.quote "" +:+
              RFC3339_local year month day hour min sec (time.nsec t)).
  intros pre ->.
  unfold zoneSuffix. destruct (time.offset t =? 0).
  - rewrite index_last, Z.eqb_refl. reflexivity.
  - cbv zeta in Hzh, Hzm |- *.
    set (az := if Z.quot (time.offset t) 60 <? 0
               then - Z.quot (time.offset t) 60 else Z.quot (time.offset t) 60) in *.
    assert (Esfx : forall rest,
              (if Z.quot (time.offset t) 60 <? 0 then "-" else "+") +:+ rest =
              String (if Z.quot (time.offset t) 60 <? 0 then "-"%char else "+"%char) rest)
      by (intros rest; destruct (Z.quot (time.offset t) 60 <? 0); reflexivity).
    rewrite Esfx.
    destruct (strict_zone pre
                (if Z.quot (time.offset t) 60 <? 0 then "-"%char else "+"%char)
                (Z.quot az 60) (Z.rem az 60) Hzh Hzm) as (C1 & C6 & C5).
    { destruct (Z.quot (time.offset t) 60 <? 0); [right | left]; reflexivity. }
    cbv zeta in C1, C6, C5. rewrite C1, C6, C5. reflexivity.
Qed.

Lemma MarshalJSON_text : time_json.MarshalJSON t = Ok (quoted text).
Proof.
  unfold time_json.MarshalJSON. rewrite appendStrictRFC3339_passes. reflexivity.
Qed.

End MarshalRFC3339.

(** *** The scanner on a string literal *)

Lemma plain_every (s : string) : plain s = every plainByte s.
Proof. induction s as [|x s IH]; simpl; [reflexivity | now rewrite IH]. Qed.

Lemma plainByte_html (c : ascii) :
  plainByte c = true ->
  Ascii.eqb c "<" = false /\ Ascii.eqb c ">" = false /\ Ascii.eqb c "&" = false /\
  (byteZ c =? 226) = false.
Proof.
  unfold plainByte, json.htmlSafeSet. intros H.
  apply andb_true_iff in H as [H1 H2]. apply andb_true_iff in H1 as [_ H1].
  apply negb_true_iff in H2.
  repeat (apply orb_false_iff in H2 as [H2 ?]).
  repeat split.
  - apply Ascii.eqb_neq. intros ->. discriminate.
  - apply Ascii.eqb_neq. intros ->. discriminate.
  - apply Ascii.eqb_neq. intros ->. discriminate.
  - lia.
Qed.

Lemma run_inString_plain (c : ascii) :
  plainByte c = true -> json_scanner.run inString c = (inString, json_scanner.scanContinue).
Proof.
  intros Hc. destruct (plainByte_spec c Hc) as (Hq & Hb & Hl).
  unfold json_scanner.run, inString. cbn [json_scanner.step].
  now rewrite Hq, Hb, Hl.
Qed.

(** Plain text inside a string literal is passed over: nothing is
    escaped and nothing is dropped. *)
Lemma compactLoop_plain (src text : string) : forall rest i start dst,
  plain text = true ->
  json_indent.compactLoop src true (text +:+ rest) i start dst inString =
  json_indent.compactLoop src true rest (i + String.length text) start dst inString.
Proof.
  induction text as [|c text IH]; intros rest i start dst Ht.
  - cbn [String.append String.length]. now rewrite Nat.add_0_r.
  - simpl in Ht. apply andb_true_iff in Ht as [Hc Ht].
    destruct (plainByte_html c Hc) as (H1 & H2 & H3 & H4).
    cbn [String.append String.length json_indent.compactLoop].
    rewrite H1, H2, H3, H4, (run_inString_plain c Hc). cbn [andb orb].
    change (json_scanner.scanSkipSpace <=? json_scanner.scanContinue) with false.
    cbv iota. rewrite IH by exact Ht. f_equal. lia.
Qed.

Lemma compactLoop_quoted (src text : string) :
  plain text = true ->
  json_indent.compactLoop src true (quoted text) 0 0 "" json_scanner.reset =
  (0%nat, "", json_scanner.mkScanner json_scanner.EndValue false [] None).
Proof.
  intros Ht. unfold quoted.
  change (json_indent.compactLoop src true (String json.quote (text +:+ String json.quote ""))
            0 0 "" json_scanner.reset)
    with (json_indent.compactLoop src true (text +:+ String json.quote "") 1 0 "" inString).
  rewrite compactLoop_plain by exact Ht. reflexivity.
Qed.

(** A string literal of plain text is valid JSON, and compact as it
    stands. *)
Lemma appendCompact_quoted (text : string) :
  plain text = true ->
  json_indent.appendCompact "" (quoted text) true = Ok (quoted text).
Proof.
  intros Ht. unfold json_indent.appendCompact.
  rewrite compactLoop_quoted by exact Ht.
  change (json_scanner.eof (json_scanner.mkScanner json_scanner.EndValue false [] None))
    with (json_scanner.mkScanner json_scanner.EndTop true [] None, json_scanner.scanEnd).
  cbv iota beta.
  change (json_scanner.scanEnd =? json_scanner.scanError) with false. cbv iota.
  unfold quoted at 1. cbn [String.length Nat.ltb Nat.leb]. 
  rewrite Nat.sub_0_r. cbn [String.append].
  now rewrite substring_all.
Qed.

(** *** The text of a time is plain *)

Lemma plain_fraction (n : Z) : plain (fraction n) = true.
Proof.
  unfold fraction. destruct (n =? 0); [reflexivity|].
  rewrite plain_append. cbn [plain plainByte andb].
  change (plainByte ".") with true. cbn [andb].
  rewrite plain_every. apply every_trimRight. rewrite <- plain_every.
  apply plain_appendInt.
Qed.

Lemma plain_appendFormatRFC3339 (t : time.Time) :
  plain (time_json.appendFormatRFC3339 t "" true) = true.
Proof.
  unfold time_json.appendFormatRFC3339.
  destruct (time.absDate (time.abs t)) as [[[year month] day] yday].
  destruct (time.absClock (time.abs t)) as [[hour min] sec].
  rewrite appendNano_fraction.
  destruct (time.offset t =? 0); [|destruct (Z.quot (time.offset t) 60 <? 0)];
    autorewrite with plain; rewrite !plain_appendInt, plain_fraction; reflexivity.
Qed.

(** *** The first handler, run *)

Lemma Marshal_Time_text (t : time.Time) (year month day yday hour min sec : Z) :
  - 86400 < time.offset t < 86400 ->
  time.absDate (time.abs t) = (year, month, day, yday) ->
  time.absClock (time.abs t) = (hour, min, sec) ->
  0 <= year <= 9999 ->
  json_encode.Marshal t =
  Ok (quoted (RFC3339_text year month day hour min sec (time.nsec t) (time.offset t))).
Proof.
  intros Hoff Ed Ec Hy.
  unfold json_encode.Marshal, json_encode.marshalerEncoder.
  cbn [json_encode.MarshalJSON json_encode.Marshaler_Time].
  rewrite (MarshalJSON_text t Hoff _ _ _ _ _ _ _ Ed Ec Hy).
  rewrite appendCompact_quoted; [reflexivity|].
  pose proof (plain_appendFormatRFC3339 t) as Hp.
  rewrite (appendFormatRFC3339_text t Hoff _ _ _ _ _ _ _ Ed Ec Hy) in Hp. exact Hp.
Qed.


Lemma first_handler_Ok (h : http.Header) (r : http.Request) (c : time.Clock) (js : string) :
  json_encode.Marshal (time.reading c (time.calls c)) = Ok js ->
  first_version.handler (http.mkResponse h false []) r c =
  (http.mkResponse (jsonHeader h) true
     [http.SentHeader http.StatusOK (jsonHeader h); http.SentData js],
   time.mkClock (time.reading c) (S (time.calls c))).
Proof.
  intros E. unfold first_version.handler, time.Now. rewrite E. reflexivity.
Qed.






(** The two versions print the same reading: the date and time fields
    that the first version writes in full are the ones of which the
    final version keeps the day, the month, the last two digits of the
    year, the hour and the minute; the seconds, their fraction and the
    century are what the final version leaves out. *)
Theorem versions_show_the_same_fields
  (h : http.Header) (r : http.Request) (c : time.Clock) :
  let now := time.reading c (time.calls c) in
  0 <= Year now <= 9999 ->
  - 86400 < time.offset now < 86400 ->
  exists year month day hour min sec neg zh zm,
    http.body (served_first h r c) =
      quoted (RFC3339_text year month day hour min sec (time.nsec now) (time.offset now)) /\
    http.body (served h r c) =
      successBody (RFC822Z_text day month (year mod 100) hour min neg zh zm) /\
    year = Year now /\ 0 <= zh < 24 /\ 0 <= zm < 60.
Proof.
  intros now Hy Hoff.
  destruct (time.absDate (time.abs now)) as [[[year month] day] yday] eqn:Ed.
  destruct (time.absClock (time.abs now)) as [[hour min] sec] eqn:Ec.
  rewrite (Year_eq now _ _ _ _ Ed) in Hy |- *.
  exists year, month, day, hour, min, sec. do 3 eexists.
  unfold served_first, served.
  rewrite (first_handler_Ok h r c _ (Marshal_Time_text now _ _ _ _ _ _ _ Hoff Ed Ec Hy)).
  rewrite handler_run. fold now.
  cbn [fst http.wire http.body]. rewrite !append_empty_r.
  split; [reflexivity|]. split; [|split; [reflexivity | exact (zone_in_range now Hoff)]].
  rewrite (Format_text now Hoff _ _ _ _ _ _ _ Ed Ec).
  replace (yearDigits year) with (year mod 100); [reflexivity|].
  unfold yearDigits. destruct (Z.ltb_spec year 0); [lia|]. dlia.
Qed.

Lemma versions_show_the_same_fields_witness :
  exists year month day hour min sec neg zh zm,
    http.body (served_first ∅ (http.mkRequest "GET" "/" ∅ "")
                 (time.mkClock (fun _ => t_2016_09_23_1139) 0)) =
      quoted (RFC3339_text year month day hour min sec 0 3600) /\
    http.body (served ∅ (http.mkRequest "GET" "/" ∅ "")
                 (time.mkClock (fun _ => t_2016_09_23_1139) 0)) =
      successBody (RFC822Z_text day month (year mod 100) hour min neg zh zm) /\
    year = 2016 /\ 0 <= zh < 24 /\ 0 <= zm < 60.
Proof.
  assert (Hy : 0 <= 2016 <= 9999) by lia.
  assert (Hoff : - 86400 < 3600 < 86400) by lia.
  exact (versions_show_the_same_fields ∅ (http.mkRequest "GET" "/" ∅ "")
           (time.mkClock (fun _ => t_2016_09_23_1139) 0) Hy Hoff).
Defined.
